(** * A shallow embedding of [producer.py]

    [producer.py] is a command-line producer that publishes [count] messages
    to a topic of an Event Streams REST gateway, one HTTP POST per message.

    Conventions of the embedding.
    - A Python [str] is represented by its UTF-8 encoding, a [string] of
      bytes; the text the program handles is assumed to be well-formed
      Unicode, so that [str.encode()] and [bytes.decode()] are the identity
      on the representation.
    - Values returned by [response.json()] are the Python values a JSON
      document parses to ([value]).
    - Effects are made explicit: a computation threads the list of the
      events it has caused so far (lines printed on stdout and on stderr,
      calls to [requests.post]) and either returns or raises.
    - The network is an oracle: it gives the outcome of the n-th call to
      [requests.post].
    - A trace holds what the program itself does: its [print] calls and its
      calls to [requests.post].  What a library writes on its own below
      that call (the warning of urllib3 about [verify=False], for one) is
      not part of it.
    - The command line is taken as [argparse] recognises it: a sequence of
      requests for help, options with their values, rejected occurrences
      and unrecognised arguments, consumed from left to right.
    - What belongs to the interpreter and to the [argparse] library rather
      than to the program is a parameter of the development (class
      [Interp]): [repr] on [str], [int] on [str], the program name and the
      usage text of the parser.
    - The libraries are modelled as they behave: [raise_for_status] of
      [requests] raises for the statuses 400 to 599, [response.json()]
      raises [requests.exceptions.JSONDecodeError] (requests 2.27 and
      later), and the messages of the interpreter's own exceptions have the
      wording of CPython 3.12. *)

From Stdlib Require Import String Ascii ZArith NArith List Bool Lia DecimalString.
Import ListNotations.

Set Warnings "-register-all".

Local Open Scope list_scope.
Local Open Scope string_scope.

(** ** Strings *)

(** [str(z)] for an [int], as used by f-strings. *)
Definition str_int (z : Z) : string := NilZero.string_of_int (Z.to_int z).

(** [s.encode()] and [b.decode()] (UTF-8), see the conventions above. *)
Definition bytes := string.
Definition encode (s : string) : bytes := s.
Definition decode (b : bytes) : string := b.

(** [s.rstrip(ch)] for a single character [ch]: every trailing [ch] goes. *)
Fixpoint rstrip (ch : ascii) (s : string) : string :=
  match s with
  | EmptyString => EmptyString
  | String c s' =>
      match rstrip ch s' with
      | EmptyString => if Ascii.eqb c ch then EmptyString else String c EmptyString
      | r => String c r
      end
  end.

(** [needle in hay] on two [str]: substring test. *)
Fixpoint str_contains (needle hay : string) : bool :=
  prefix needle hay
  || match hay with
     | EmptyString => false
     | String _ hay' => str_contains needle hay'
     end.

(** A byte [10xxxxxx] continues a UTF-8 sequence. *)
Definition is_continuation (c : ascii) : bool :=
  N.eqb (N.land (N_of_ascii c) 192) 128.

(** [len(s)] on a [str]: the number of code points. *)
Fixpoint str_len (s : string) : nat :=
  match s with
  | EmptyString => O
  | String c s' => if is_continuation c then str_len s' else S (str_len s')
  end.

Fixpoint take_continuation (s : string) : string :=
  match s with
  | EmptyString => EmptyString
  | String c s' => if is_continuation c then String c (take_continuation s') else EmptyString
  end.

(** [s[0]] on a non-empty [str]: its first code point. *)
Definition str_first (s : string) : option string :=
  match s with
  | EmptyString => None
  | String c s' => Some (String c (take_continuation s'))
  end.


(** ** base64 (RFC 4648, standard alphabet, with padding) *)

Definition b64_alphabet : string :=
  "ABCDEFGHIJKLMNOPQRSTUVWXYZabcdefghijklmnopqrstuvwxyz0123456789+/".

Definition b64_pad : ascii := "="%char.

Definition b64_char (n : N) : ascii :=
  match String.get (N.to_nat n) b64_alphabet with
  | Some c => c
  | None => b64_pad
  end.

Fixpoint index_of (c : ascii) (s : string) : option nat :=
  match s with
  | EmptyString => None
  | String d s' => if Ascii.eqb c d then Some O else option_map S (index_of c s')
  end.

Definition b64_value (c : ascii) : option N :=
  option_map N.of_nat (index_of c b64_alphabet).

(** The four sextets of a group of three bytes. *)
Definition sextet1 (a : N) : N := (a / 4)%N.
Definition sextet2 (a b : N) : N := ((a mod 4) * 16 + b / 16)%N.
Definition sextet3 (b c : N) : N := ((b mod 16) * 4 + c / 64)%N.
Definition sextet4 (c : N) : N := (c mod 64)%N.

(** [base64.b64encode]. *)
Fixpoint b64encode (bs : bytes) : bytes :=
  match bs with
  | EmptyString => EmptyString
  | String x EmptyString =>
      let a := N_of_ascii x in
      String (b64_char (sextet1 a)) (String (b64_char (sextet2 a 0))
        (String b64_pad (String b64_pad EmptyString)))
  | String x (String y EmptyString) =>
      let a := N_of_ascii x in
      let b := N_of_ascii y in
      String (b64_char (sextet1 a)) (String (b64_char (sextet2 a b))
        (String (b64_char (sextet3 b 0)) (String b64_pad EmptyString)))
  | String x (String y (String z rest)) =>
      let a := N_of_ascii x in
      let b := N_of_ascii y in
      let c := N_of_ascii z in
      String (b64_char (sextet1 a)) (String (b64_char (sextet2 a b))
        (String (b64_char (sextet3 b c)) (String (b64_char (sextet4 c))
          (b64encode rest))))
  end.

(** The three bytes four sextets stand for. *)
Definition byte1 (v1 v2 : N) : ascii := ascii_of_N (v1 * 4 + v2 / 16).
Definition byte2 (v2 v3 : N) : ascii := ascii_of_N ((v2 mod 16) * 16 + v3 / 4).
Definition byte3 (v3 v4 : N) : ascii := ascii_of_N ((v3 mod 4) * 64 + v4).

Definition is_empty (s : string) : bool :=
  match s with EmptyString => true | _ => false end.

(** Decoding of padded base64 text: groups of four characters of the
    alphabet, the last group possibly ending in one or two pad characters. *)
Fixpoint b64decode (s : bytes) : option bytes :=
  match s with
  | EmptyString => Some EmptyString
  | String c1 (String c2 (String c3 (String c4 rest))) =>
      match b64_value c1, b64_value c2 with
      | Some v1, Some v2 =>
          match b64_value c3, b64_value c4 with
          | Some v3, Some v4 =>
              option_map
                (fun tl => String (byte1 v1 v2) (String (byte2 v2 v3) (String (byte3 v3 v4) tl)))
                (b64decode rest)
          | Some v3, None =>
              if Ascii.eqb c4 b64_pad && is_empty rest
              then Some (String (byte1 v1 v2) (String (byte2 v2 v3) EmptyString))
              else None
          | None, None =>
              if Ascii.eqb c3 b64_pad && Ascii.eqb c4 b64_pad && is_empty rest
              then Some (String (byte1 v1 v2) EmptyString)
              else None
          | None, Some _ => None
          end
      | _, _ => None
      end
  | _ => None
  end.

(** ** Python values *)

(** A [float] is represented by what the program can observe of it: whether
    it is zero (truth value) and its [repr]. *)
Record pyfloat := { float_is_zero : bool; float_repr : string }.

(** The values [json.loads] produces. A [dict] keeps its insertion order;
    its keys are [str] and pairwise distinct. *)
Inductive value :=
| PyNone
| PyBool (b : bool)
| PyInt (z : Z)
| PyFloat (f : pyfloat)
| PyStr (s : string)
| PyList (xs : list value)
| PyDict (kvs : list (string * value)).

Definition type_name (v : value) : string :=
  match v with
  | PyNone => "NoneType"
  | PyBool _ => "bool"
  | PyInt _ => "int"
  | PyFloat _ => "float"
  | PyStr _ => "str"
  | PyList _ => "list"
  | PyDict _ => "dict"
  end.

(** Truth value testing ([if v], [v and ...]). *)
Definition truthy (v : value) : bool :=
  match v with
  | PyNone => false
  | PyBool b => b
  | PyInt z => negb (Z.eqb z 0)
  | PyFloat f => negb (float_is_zero f)
  | PyStr s => negb (is_empty s)
  | PyList xs => match xs with [] => false | _ => true end
  | PyDict kvs => match kvs with [] => false | _ => true end
  end.

Fixpoint dict_lookup (key : string) (kvs : list (string * value)) : option value :=
  match kvs with
  | [] => None
  | (k, v) :: kvs' => if String.eqb key k then Some v else dict_lookup key kvs'
  end.

Definition has_key (key : string) (kvs : list (string * value)) : bool :=
  match dict_lookup key kvs with Some _ => true | None => false end.

(** [x == s] for a [str] [s]. *)
Definition eq_str (s : string) (x : value) : bool :=
  match x with
  | PyStr s' => String.eqb s s'
  | _ => false
  end.

(** ** HTTP *)

Record request := {
  method : string;
  url : string;
  headers : list (string * string);
  json : value;
  verify : bool;
  timeout : Z
}.

(** What [response.json()] does: the parsed body, or a decoding error. *)
Inductive json_result :=
| JsonValue (v : value)
| JsonError (msg : string).

Record response := {
  status_code : Z;
  reason : string;
  response_url : string;
  text : string;
  json_body : json_result
}.

(** ** Exceptions *)

Inductive exc :=
| RequestException (msg : string) (resp : option response)
| KeyboardInterrupt
| SystemExit (code : Z)
| TypeError (msg : string)
| AttributeError (msg : string)
| KeyError (key : value)
| IndexError (msg : string).

(** [except Exception] catches everything but the two [BaseException]s. *)
Definition is_Exception (e : exc) : bool :=
  match e with
  | KeyboardInterrupt | SystemExit _ => false
  | _ => true
  end.

Definition is_RequestException (e : exc) : bool :=
  match e with
  | RequestException _ _ => true
  | _ => false
  end.

Definition is_KeyboardInterrupt (e : exc) : bool :=
  match e with
  | KeyboardInterrupt => true
  | _ => false
  end.

Inductive outcome (A : Type) :=
| Ret (a : A)
| Raise (e : exc).

Arguments Ret {A} a.
Arguments Raise {A} e.

(** ** Operations on values, as the interpreter performs them *)

(** [item in container] for a [str] item. *)
Definition py_in (item : string) (container : value) : outcome bool :=
  match container with
  | PyDict kvs => Ret (has_key item kvs)
  | PyList xs => Ret (existsb (eq_str item) xs)
  | PyStr s => Ret (str_contains item s)
  | v => Raise (TypeError ("argument of type '" ++ type_name v ++ "' is not iterable"))
  end.

(** [container[key]] for a [str] key. *)
Definition getitem_str (container : value) (key : string) : outcome value :=
  match container with
  | PyDict kvs =>
      match dict_lookup key kvs with
      | Some v => Ret v
      | None => Raise (KeyError (PyStr key))
      end
  | PyList _ => Raise (TypeError "list indices must be integers or slices, not str")
  | PyStr _ => Raise (TypeError "string indices must be integers, not 'str'")
  | v => Raise (TypeError ("'" ++ type_name v ++ "' object is not subscriptable"))
  end.

(** [container[0]]. *)
Definition getitem_0 (container : value) : outcome value :=
  match container with
  | PyDict _ => Raise (KeyError (PyInt 0))
  | PyList xs =>
      match xs with
      | x :: _ => Ret x
      | [] => Raise (IndexError "list index out of range")
      end
  | PyStr s =>
      match str_first s with
      | Some c => Ret (PyStr c)
      | None => Raise (IndexError "string index out of range")
      end
  | v => Raise (TypeError ("'" ++ type_name v ++ "' object is not subscriptable"))
  end.

(** [len(v)]. *)
Definition py_len (v : value) : outcome Z :=
  match v with
  | PyDict kvs => Ret (Z.of_nat (List.length kvs))
  | PyList xs => Ret (Z.of_nat (List.length xs))
  | PyStr s => Ret (Z.of_nat (str_len s))
  | v => Raise (TypeError ("object of type '" ++ type_name v ++ "' has no len()"))
  end.

(** [v.get(key, default)]: only a [dict] has the method. *)
Definition py_get (v : value) (key : string) (default : value) : outcome value :=
  match v with
  | PyDict kvs =>
      match dict_lookup key kvs with
      | Some x => Ret x
      | None => Ret default
      end
  | v => Raise (AttributeError ("'" ++ type_name v ++ "' object has no attribute 'get'"))
  end.

(** ** Computations: a trace of events and a result or an exception *)

Inductive event :=
| Stdout (line : string)
| Stderr (line : string)
| Post (rq : request).

Definition trace := list event.

Definition M (A : Type) : Type := trace -> outcome A * trace.

Definition ret {A} (a : A) : M A := fun t => (Ret a, t).

Definition raise {A} (e : exc) : M A := fun t => (Raise e, t).

Definition bind {A B} (m : M A) (k : A -> M B) : M B :=
  fun t =>
    match m t with
    | (Ret a, t') => k a t'
    | (Raise e, t') => (Raise e, t')
    end.

Definition lift {A} (o : outcome A) : M A := fun t => (o, t).

(** [try: m except E1 as e: h1 e except E2 as e: h2 e ...]: a clause is a
    test telling the instances of its exception class, and its handler; the
    first clause whose test accepts the exception handles it, and what a
    handler raises is not handled by the clauses after it. *)
Definition clause (A : Type) : Type := ((exc -> bool) * (exc -> M A))%type.

Fixpoint select_clause {A} (clauses : list (clause A)) (e : exc) : option (exc -> M A) :=
  match clauses with
  | [] => None
  | (handles, handler) :: rest =>
      if handles e then Some handler else select_clause rest e
  end.

Definition try_except {A} (m : M A) (clauses : list (clause A)) : M A :=
  fun t =>
    match m t with
    | (Ret a, t') => (Ret a, t')
    | (Raise e, t') =>
        match select_clause clauses e with
        | Some handler => handler e t'
        | None => (Raise e, t')
        end
    end.

Declare Scope monad_scope.
Delimit Scope monad_scope with monad.
Bind Scope monad_scope with M.

Notation "x <- m ;; k" := (bind m (fun x => k))
  (at level 61, m at next level, right associativity) : monad_scope.
Notation "m ;; k" := (bind m (fun _ => k))
  (at level 61, right associativity) : monad_scope.

Local Open Scope monad_scope.

(** [print(line)] and [print(line, file=sys.stderr)]. *)
Definition print (line : string) : M unit := fun t => (Ret tt, (t ++ [Stdout line])%list).
Definition print_err (line : string) : M unit := fun t => (Ret tt, (t ++ [Stderr line])%list).

(** [sys.exit(code)]. *)
Definition sys_exit {A} (code : Z) : M A := raise (SystemExit code).

Fixpoint requests_of (t : trace) : list request :=
  match t with
  | [] => []
  | Post rq :: t' => rq :: requests_of t'
  | _ :: t' => requests_of t'
  end.

Fixpoint stdout_of (t : trace) : list string :=
  match t with
  | [] => []
  | Stdout l :: t' => l :: stdout_of t'
  | _ :: t' => stdout_of t'
  end.

Fixpoint stderr_of (t : trace) : list string :=
  match t with
  | [] => []
  | Stderr l :: t' => l :: stderr_of t'
  | _ :: t' => stderr_of t'
  end.

(** ** The [requests] library *)

(** The outcome of one call to [requests.post]: a response (of any status),
    a [RequestException] raised by the transport (connection, timeout, ...)
    or an interrupt of the user while the call blocks. *)
Inductive post_result :=
| Responds (r : response)
| Fails (msg : string) (resp : option response)
| Interrupted.

(** The network gives the outcome of the n-th call (from 0). *)
Definition network := nat -> post_result.

Definition requests_post (net : network) (u : string) (hs : list (string * string))
    (payload : value) (vfy : bool) (tmo : Z) : M response :=
  fun t =>
    let rq := {| method := "POST"; url := u; headers := hs; json := payload;
                 verify := vfy; timeout := tmo |} in
    let t' := (t ++ [Post rq])%list in
    match net (List.length (requests_of t)) with
    | Responds r => (Ret r, t')
    | Fails msg resp => (Raise (RequestException msg resp), t')
    | Interrupted => (Raise KeyboardInterrupt, t')
    end.

Definition http_error_msg (kind : string) (r : response) : string :=
  str_int (status_code r) ++ " " ++ kind ++ " Error: " ++ reason r
  ++ " for url: " ++ response_url r.

(** [response.raise_for_status()]: an [HTTPError] (a [RequestException]
    that carries the response) for the statuses 400 to 599, nothing for any
    other status. *)
Definition raise_for_status (r : response) : M unit :=
  if (400 <=? status_code r)%Z && (status_code r <? 500)%Z then
    raise (RequestException (http_error_msg "Client" r) (Some r))
  else if (500 <=? status_code r)%Z && (status_code r <? 600)%Z then
    raise (RequestException (http_error_msg "Server" r) (Some r))
  else ret tt.

(** [response.json()]: a body that is not JSON raises
    [requests.exceptions.JSONDecodeError], a [RequestException] without
    response. *)
Definition response_json (r : response) : M value :=
  match json_body r with
  | JsonValue v => ret v
  | JsonError msg => raise (RequestException msg None)
  end.

(** ** The command line *)

(** [args], the namespace [parser.parse_args()] returns. *)
Record namespace := {
  topic : string;
  rest_api_url : string;
  username : string;
  password : string;
  message : string;
  count : Z
}.

(** The options [main] declares; [argparse] adds [-h] and [--help]. *)
Inductive option_name :=
| OptTopic
| OptRestApiUrl
| OptUsername
| OptPassword
| OptMessage
| OptCount.

Definition option_string (o : option_name) : string :=
  match o with
  | OptTopic => "--topic"
  | OptRestApiUrl => "--rest-api-url"
  | OptUsername => "--username"
  | OptPassword => "--password"
  | OptMessage => "--message"
  | OptCount => "--count"
  end.

Definition option_name_eqb (a b : option_name) : bool :=
  match a, b with
  | OptTopic, OptTopic | OptRestApiUrl, OptRestApiUrl | OptUsername, OptUsername
  | OptPassword, OptPassword | OptMessage, OptMessage | OptCount, OptCount => true
  | _, _ => false
  end.

(** What [argparse] makes of one part of the command line, once it has
    recognised the option strings (spelled in full, abbreviated, or in the
    form [--opt=value]): a request for help ([-h], [--help]), an option of
    the parser with the text given for it, an occurrence it rejects when it
    reaches it (an option without its value, a value glued to [-h]) with the
    message of the error, or an argument it does not recognise. *)
Inductive argument :=
| Help
| Given (o : option_name) (v : string)
| Invalid (msg : string)
| Unrecognized (s : string).

(** An invocation: the parts of the command line, from left to right. *)
Definition invocation := list argument.

(** What the parser has gathered so far: the text last given for each
    option, the converted [--count], the arguments it did not recognise. *)
Record parse_state := {
  given : option_name -> option string;
  count_value : Z;
  extras : list string
}.

(** Nothing given; [--count] has the default 1. *)
Definition initial_state : parse_state :=
  {| given := fun _ => None; count_value := 1; extras := [] |}.

Definition set_given (o : option_name) (v : string) (st : parse_state) : parse_state :=
  {| given := fun o' => if option_name_eqb o' o then Some v else given st o';
     count_value := count_value st;
     extras := extras st |}.

Definition set_count (z : Z) (st : parse_state) : parse_state :=
  {| given := given st; count_value := z; extras := extras st |}.

Definition add_extra (s : string) (st : parse_state) : parse_state :=
  {| given := given st; count_value := count_value st; extras := (extras st ++ [s])%list |}.

(** The options declared with [required=True], in the order of their
    declaration. *)
Definition required_options : list option_name :=
  [OptTopic; OptRestApiUrl; OptUsername; OptPassword].

(** The required options that were not seen. *)
Definition missing_required (st : parse_state) : list string :=
  flat_map (fun o => match given st o with
                     | None => [option_string o]
                     | Some _ => []
                     end) required_options.

(** The exit status of the process, from the way [main()] ends: normal
    return, [sys.exit(code)], or an exception nobody caught. *)
Definition exit_code {A} (o : outcome A) : Z :=
  match o with
  | Ret _ => 0
  | Raise (SystemExit code) => code
  | Raise _ => 1
  end.

(** [for i in range(stop): body i], [n] iterations being left and [i]
    being the next index. *)
Fixpoint for_range (n : nat) (i : Z) (body : Z -> M unit) : M unit :=
  match n with
  | O => ret tt
  | S n' => body i ;; for_range n' (i + 1)%Z body
  end.

Definition for_in_range (stop : Z) (body : Z -> M unit) : M unit :=
  for_range (Z.to_nat stop) 0%Z body.

(** ** The interpreter *)

(** What the interpreter and the [argparse] library provide and the program
    relies on: [repr(s)] and [int(s)] on a [str] ([None] standing for
    [ValueError]), the program name, the usage text that [argparse] prints
    before an error and the help text it prints for [-h]. *)
Class Interp := {
  repr_str : string -> string;
  py_int : string -> option Z;
  prog : string;
  usage : string;
  help_text : string
}.

(** ** Sample instances of the parameters and sample inputs *)

(** [repr] as it is on printable ASCII text without quotes or backslashes. *)
Definition repr_plain (s : string) : string := "'" ++ s ++ "'".

(** [int] as it is on plain decimal literals. *)
Definition int_plain (s : string) : option Z :=
  if is_empty s then None else option_map Z.of_int (NilZero.int_of_string s).

Definition usage_plain : string :=
  "usage: producer.py [-h] --topic TOPIC --rest-api-url REST_API_URL --username USERNAME --password PASSWORD [--message MESSAGE] [--count COUNT]".

#[export] Instance plain : Interp :=
  {| repr_str := repr_plain; py_int := int_plain;
     prog := "producer.py"; usage := usage_plain;
     help_text := usage_plain ++ " REST API Producer for Event Streams" |}.

Definition sample_args (n : Z) : namespace :=
  {| topic := "orders"; rest_api_url := "https://host/"; username := "pp";
     password := "s3cret"; message := "Hello from REST API"; count := n |}.

Definition ok_response (body : string) (v : value) : response :=
  {| status_code := 200; reason := "OK";
     response_url := "https://host/topics/orders/records";
     text := body; json_body := JsonValue v |}.

(** A gateway that acknowledges every record with an empty object. *)
Definition net_ok : network := fun _ => Responds (ok_response "{}" (PyDict [])).

(** A gateway that answers the first record with [300 Multiple Choices]
    (and a JSON body) and acknowledges the following ones. *)
Definition response_300 : response :=
  {| status_code := 300; reason := "Multiple Choices";
     response_url := "https://host/topics/orders/records";
     text := "{}"; json_body := JsonValue (PyDict []) |}.

Definition net_300 : network :=
  fun n => match n with
           | O => Responds response_300
           | S _ => Responds (ok_response "{}" (PyDict []))
           end.

(** A gateway that answers [404 Not Found] to the second record. *)
Definition response_404 : response :=
  {| status_code := 404; reason := "Not Found";
     response_url := "https://host/topics/orders/records";
     text := "no such topic"; json_body := JsonError "Expecting value" |}.

Definition net_404 : network :=
  fun n => match n with
           | 1%nat => Responds response_404
           | _ => Responds (ok_response "{}" (PyDict []))
           end.

(** [s] between double quotes, for the text of JSON bodies. *)
Definition quoted (s : string) : string := String "034" (s ++ String "034" EmptyString).

(** Gateways that answer every record with 200 and the given JSON body. *)
Definition net_json (body : string) (v : value) : network :=
  fun _ => Responds (ok_response body v).



(** Gateways for the further properties: the second call fails in the
    transport, is interrupted, is answered with a body that is no JSON, or
    with the JSON number 7. *)
Definition net_second (p : post_result) : network :=
  fun n => match n with
           | 1%nat => p
           | _ => Responds (ok_response "{}" (PyDict []))
           end.

Definition response_html : response :=
  {| status_code := 200; reason := "OK";
     response_url := "https://host/topics/orders/records";
     text := "<html></html>"; json_body := JsonError "Expecting value: line 1 column 1 (char 0)" |}.

(** A gateway that acknowledges record [k] with partition 0 and offset [k]. *)
Definition net_metadata : network :=
  fun k => Responds (ok_response "metadata"
                       (PyDict [("metadata",
                                 PyDict [("partition", PyInt 0);
                                         ("offset", PyInt (Z.of_nat k))])])).


(** [--topic orders --rest-api-url https://host --count 2 extra]. *)
Definition inv_no_credentials : invocation :=
  [Given OptTopic "orders"; Given OptRestApiUrl "https://host"; Given OptCount "2";
   Unrecognized "extra"].

(** [--topic test --rest-api-url https://host/ --username pp --password
    s3cret --topic orders]: the last value given for an option counts. *)
Definition inv_default : invocation :=
  [Given OptTopic "test"; Given OptRestApiUrl "https://host/"; Given OptUsername "pp";
   Given OptPassword "s3cret"; Given OptTopic "orders"].

(** ** The program *)

Section Producer.

Context `{Interp}.

(** [repr(v)]. *)
Fixpoint py_repr (v : value) : string :=
  match v with
  | PyNone => "None"
  | PyBool true => "True"
  | PyBool false => "False"
  | PyInt z => str_int z
  | PyFloat f => float_repr f
  | PyStr s => repr_str s
  | PyList xs => "[" ++ String.concat ", " (map py_repr xs) ++ "]"
  | PyDict kvs =>
      "{" ++ String.concat ", "
               (map (fun kv => match kv with
                               | (k, x) => repr_str k ++ ": " ++ py_repr x
                               end) kvs)
      ++ "}"
  end.

(** [str(v)], which is what an f-string field without format spec shows. *)
Definition py_str (v : value) : string :=
  match v with
  | PyStr s => s
  | _ => py_repr v
  end.

(** [str(e)]. *)
Definition exc_str (e : exc) : string :=
  match e with
  | RequestException msg _ => msg
  | KeyboardInterrupt => ""
  | SystemExit code => str_int code
  | TypeError msg => msg
  | AttributeError msg => msg
  | KeyError key => py_repr key
  | IndexError msg => msg
  end.

Definition produce_message_rest (net : network)
    (rest_api_url topic username password message : string) : M value :=
  let url := rest_api_url ++ "/topics/" ++ topic ++ "/records" in
  let credentials := username ++ ":" ++ password in
  let auth_header := decode (b64encode (encode credentials)) in
  let headers := [("Content-Type", "application/json");
                  ("Authorization", "Basic " ++ auth_header)] in
  let payload := PyDict [("records", PyList [PyDict [("value", PyStr message)]])] in
  try_except
    (response <- requests_post net url headers payload false 30 ;;
     raise_for_status response ;;
     response_json response)
    [(is_RequestException,
      fun e =>
        print_err ("❌ REST API error: " ++ exc_str e) ;;
        match e with
        | RequestException _ (Some r) =>
            print_err ("   Status: " ++ str_int (status_code r)) ;;
            print_err ("   Response: " ++ text r)
        | _ => ret tt
        end ;;
        raise e)].

(** The text of message [i] (from 0). *)
Definition message_text (args : namespace) (i : Z) : string :=
  if (count args =? 1)%Z then message args
  else message args ++ " (" ++ str_int (i + 1) ++ "/" ++ str_int (count args) ++ ")".

Definition delivered_line (args : namespace) (i : Z) (partition offset : value) : string :=
  "✅ Message " ++ str_int (i + 1) ++ " delivered to " ++ topic args
  ++ " [partition " ++ py_str partition ++ "] at offset " ++ py_str offset.

Definition sent_line (i : Z) (result : value) : string :=
  "✅ Message " ++ str_int (i + 1) ++ " sent (response: " ++ py_str result ++ ")".

(** [result and 'metadata' in result]. *)
Definition has_metadata (result : value) : M bool :=
  if truthy result then lift (py_in "metadata" result) else ret false.

(** [result and 'offsets' in result and len(result['offsets']) > 0]. *)
Definition has_offsets (result : value) : M bool :=
  if truthy result then
    present <- lift (py_in "offsets" result) ;;
    if (present : bool) then
      offsets <- lift (getitem_str result "offsets") ;;
      n <- lift (py_len offsets) ;;
      ret (0 <? n)%Z
    else ret false
  else ret false.

(** What [main] does with the [result] of message [i]. *)
Definition report (args : namespace) (i : Z) (result : value) : M unit :=
  c1 <- has_metadata result ;;
  if (c1 : bool) then
    metadata <- lift (getitem_str result "metadata") ;;
    partition <- lift (py_get metadata "partition" (PyStr "?")) ;;
    offset <- lift (py_get metadata "offset" (PyStr "?")) ;;
    print (delivered_line args i partition offset)
  else
    c2 <- has_offsets result ;;
    if (c2 : bool) then
      offsets <- lift (getitem_str result "offsets") ;;
      offset_info <- lift (getitem_0 offsets) ;;
      partition <- lift (py_get offset_info "partition" (PyStr "?")) ;;
      offset <- lift (py_get offset_info "offset" (PyStr "?")) ;;
      print (delivered_line args i partition offset)
    else print (sent_line i result).

(** The body of the [for] loop of [main]. *)
Definition loop_body (net : network) (args : namespace) (url : string) (i : Z) : M unit :=
  let msg := message_text args i in
  result <- produce_message_rest net url (topic args) (username args) (password args) msg ;;
  report args i result.

(** [main], from the line after [parser.parse_args()] on. *)
Definition main_body (net : network) (args : namespace) : M unit :=
  let url := rstrip "/" (rest_api_url args) in
  print "🚀 Producing messages via REST API..." ;;
  print ("   Topic: " ++ topic args) ;;
  print ("   REST API: " ++ url) ;;
  print ("   Username: " ++ username args) ;;
  print "" ;;
  try_except
    (for_in_range (count args) (loop_body net args url) ;;
     print "✅ All messages sent and delivered")
    [(is_KeyboardInterrupt,
      fun _ => print (String "010" "⚠️  Interrupted") ;; sys_exit 1);
     (is_Exception,
      fun e => print_err ("❌ Error: " ++ exc_str e) ;; sys_exit 1)].

(** [parser.error(msg)]: usage and message on stderr, exit status 2. *)
Definition parser_error {A} (msg : string) : M A :=
  print_err usage ;;
  print_err (prog ++ ": error: " ++ msg) ;;
  sys_exit 2.

(** The parser goes through the parts of the command line from left to
    right.  A request for help prints the help on stdout and exits with
    status 0 at once; a rejected occurrence and a [--count] value that [int]
    rejects are errors at once; the text of an option replaces what was
    given for it before; an unrecognised argument is set aside. *)
Fixpoint consume (inv : invocation) (st : parse_state) : M parse_state :=
  match inv with
  | [] => ret st
  | Help :: _ => print help_text ;; sys_exit 0
  | Invalid msg :: _ => parser_error msg
  | Unrecognized s :: rest => consume rest (add_extra s st)
  | Given OptCount v :: rest =>
      match py_int v with
      | Some z => consume rest (set_count z (set_given OptCount v st))
      | None => parser_error ("argument --count: invalid int value: " ++ repr_str v)
      end
  | Given o v :: rest => consume rest (set_given o v st)
  end.

(** [parser.parse_args()] for the parser [main] declares: [--count] goes
    through [int], [--message] and [--count] have defaults, the four other
    options are required; once the command line is consumed, a required
    option that was not seen is an error, and then an argument that was not
    recognised is one. *)
Definition parse_args (inv : invocation) : M namespace :=
  st <- consume inv initial_state ;;
  match given st OptTopic, given st OptRestApiUrl, given st OptUsername,
        given st OptPassword with
  | Some t, Some u, Some usr, Some pwd =>
      match extras st with
      | [] =>
          ret {| topic := t; rest_api_url := u; username := usr; password := pwd;
                 message := match given st OptMessage with
                            | Some m => m
                            | None => "Hello from REST API"
                            end;
                 count := count_value st |}
      | _ => parser_error ("unrecognized arguments: " ++ String.concat " " (extras st))
      end
  | _, _, _, _ =>
      parser_error ("the following arguments are required: "
                    ++ String.concat ", " (missing_required st))
  end.

Definition main (net : network) (inv : invocation) : M unit :=
  args <- parse_args inv ;;
  main_body net args.

(** A run of the program: the events it causes and its exit status. *)
Definition run (net : network) (inv : invocation) : trace * Z :=
  let (o, t) := main net inv [] in (t, exit_code o).

Definition run_body (net : network) (args : namespace) : trace * Z :=
  let (o, t) := main_body net args [] in (t, exit_code o).

End Producer.

(** ** Notions used to state the properties *)

(** The request [produce_message_rest] builds from its arguments. *)
Definition sent_request (url topic username password message : string) : request :=
  {| method := "POST";
     url := url ++ "/topics/" ++ topic ++ "/records";
     headers := [("Content-Type", "application/json");
                 ("Authorization", "Basic " ++ b64encode (username ++ ":" ++ password))];
     json := PyDict [("records", PyList [PyDict [("value", PyStr message)]])];
     verify := false;
     timeout := 30 |}.

(** The value of a header. *)
Fixpoint header (name : string) (hs : list (string * string)) : option string :=
  match hs with
  | [] => None
  | (k, v) :: hs' => if String.eqb name k then Some v else header name hs'
  end.

(** [s.endswith(ch)]. *)
Fixpoint ends_with (ch : ascii) (s : string) : bool :=
  match s with
  | EmptyString => false
  | String c EmptyString => Ascii.eqb c ch
  | String _ s' => ends_with ch s'
  end.


Definition set_password (args : namespace) (p : string) : namespace :=
  {| topic := topic args; rest_api_url := rest_api_url args; username := username args;
     password := p; message := message args; count := count args |}.

(** What of an event shows outside the requests themselves. *)
Inductive observation :=
| OStdout (line : string)
| OStderr (line : string)
| ORequest.

Definition observe (e : event) : observation :=
  match e with
  | Stdout l => OStdout l
  | Stderr l => OStderr l
  | Post _ => ORequest
  end.

(** The error message [raise_for_status] builds for a status 400 to 599. *)
Definition http_error_of (r : response) : string :=
  http_error_msg (if (status_code r <? 500)%Z then "Client" else "Server") r.

(** The exceptions that end the process with a status of their own. *)
Definition exits (e : exc) : Prop :=
  match e with
  | SystemExit _ => True
  | _ => False
  end.

(** The lines [main] prints before the loop. *)
Definition banner (args : namespace) : trace :=
  [Stdout "🚀 Producing messages via REST API...";
   Stdout ("   Topic: " ++ topic args);
   Stdout ("   REST API: " ++ rstrip "/" (rest_api_url args));
   Stdout ("   Username: " ++ username args);
   Stdout ""].

(** The request a run issues for message [k] (from 0). *)
Definition nth_request (args : namespace) (k : nat) : request :=
  sent_request (rstrip "/" (rest_api_url args)) (topic args) (username args)
    (password args) (message_text args (Z.of_nat k)).

(** [d.get(key, '?')] on the items of a [dict]. *)
Definition get_or_placeholder (key : string) (kvs : list (string * value)) : value :=
  match dict_lookup key kvs with
  | Some x => x
  | None => PyStr "?"
  end.

(** Two computations that cannot be told apart by what they return and by
    what their traces show, from traces that show the same. *)
Definition sim {A} (m1 m2 : M A) : Prop :=
  forall t1 t2 : trace,
    map observe t1 = map observe t2 ->
    fst (m1 t1) = fst (m2 t2)
    /\ map observe (snd (m1 t1)) = map observe (snd (m2 t2)).

(** ** Notions used to state the properties of the command line *)

(** The text last given for option [o]. *)
Fixpoint last_given (o : option_name) (inv : invocation) : option string :=
  match inv with
  | [] => None
  | a :: rest =>
      match last_given o rest with
      | Some v => Some v
      | None =>
          match a with
          | Given o' v => if option_name_eqb o o' then Some v else None
          | _ => None
          end
      end
  end.


(** The arguments that are not recognised, from left to right. *)
Fixpoint unrecognized_of (inv : invocation) : list string :=
  match inv with
  | [] => []
  | Unrecognized s :: rest => s :: unrecognized_of rest
  | _ :: rest => unrecognized_of rest
  end.

(** The required options that an invocation does not give. *)
Definition missing_options (inv : invocation) : list string :=
  flat_map (fun o => match last_given o inv with
                     | None => [option_string o]
                     | Some _ => []
                     end) required_options.

(** ** Notions used to state further properties *)

(** The events of messages that were sent and reported: each request,
    followed by the line printed for it. *)
Fixpoint exchanges (rqs : list request) (lines : list string) : trace :=
  match rqs, lines with
  | rq :: rqs', line :: lines' => Post rq :: Stdout line :: exchanges rqs' lines'
  | _, _ => []
  end.

(** The request the loop issues for message [i] (from 0), [u] being the
    normalized URL. *)
Definition loop_request (args : namespace) (u : string) (i : Z) : request :=
  sent_request u (topic args) (username args) (password args) (message_text args i).

(** The characters of base64 text: the alphabet and the pad. *)
Definition b64_symbol (c : ascii) : bool :=
  match b64_value c with
  | Some _ => true
  | None => Ascii.eqb c b64_pad
  end.

Fixpoint string_forall (p : ascii -> bool) (s : string) : bool :=
  match s with
  | EmptyString => true
  | String c s' => p c && string_forall p s'
  end.

(** The true values that are neither containers nor [str]: [True], the
    numbers other than zero. *)
Definition truthy_scalar (v : value) : bool :=
  match v with
  | PyBool b => b
  | PyInt z => negb (Z.eqb z 0)
  | PyFloat f => negb (float_is_zero f)
  | _ => false
  end.

(** A response that [raise_for_status] lets through. *)
Definition accepted (r : response) : Prop := ~ (400 <= status_code r < 600)%Z.

Section Reporting.

Context `{Interp}.

(** The parts of a command line that do not stop the parser: no request
    for help, no rejected occurrence, no [--count] value that [int]
    rejects. *)
Definition passes (inv : invocation) : bool :=
  forallb (fun a => match a with
                    | Help | Invalid _ => false
                    | Given OptCount v => match py_int v with
                                          | Some _ => true
                                          | None => false
                                          end
                    | _ => true
                    end) inv.

(** The results [main] knows how to report, with the line it prints for
    message [i]: a [dict] with a [metadata] dict, a [dict] without
    [metadata] whose [offsets] list starts with a dict, and, with the generic
    line, a false value or a [dict] with neither. *)
Inductive reported_as (args : namespace) (i : Z) : value -> string -> Prop :=
| reported_metadata kvs md :
    dict_lookup "metadata" kvs = Some (PyDict md) ->
    reported_as args i (PyDict kvs)
      (delivered_line args i (get_or_placeholder "partition" md)
         (get_or_placeholder "offset" md))
| reported_offsets kvs info rest :
    dict_lookup "metadata" kvs = None ->
    dict_lookup "offsets" kvs = Some (PyList (PyDict info :: rest)) ->
    reported_as args i (PyDict kvs)
      (delivered_line args i (get_or_placeholder "partition" info)
         (get_or_placeholder "offset" info))
| reported_false v :
    truthy v = false ->
    reported_as args i v (sent_line i v)
| reported_other kvs :
    dict_lookup "metadata" kvs = None ->
    dict_lookup "offsets" kvs = None \/ dict_lookup "offsets" kvs = Some (PyList []) ->
    reported_as args i (PyDict kvs) (sent_line i (PyDict kvs)).

(** An outcome of the network on which an iteration of the loop raises [e]
    after its request and the lines [errs] on stderr, whatever was sent
    before. *)
Definition aborts (net : network) (args : namespace) (u : string)
    (p : post_result) (e : exc) (errs : list string) : Prop :=
  forall (i : Z) (t : trace),
    net (List.length (requests_of t)) = p ->
    loop_body net args u i t
    = (Raise e, (t ++ Post (loop_request args u i) :: map Stderr errs)%list).

End Reporting.

(** * Properties of the libraries *)

(** ** Strings *)





Lemma str_contains_nonempty (needle hay : string) :
  needle <> "" -> str_contains needle hay = true -> is_empty hay = false.
Proof.
  intros Hn. destruct hay; [|reflexivity].
  destruct needle; [congruence|]. simpl. discriminate.
Qed.

(** ** base64: decoding inverts encoding *)

Ltac n_arith := zify; Z.to_euclidean_division_equations; lia.

Lemma b64_value_char (n : N) : (n < 64)%N -> b64_value (b64_char n) = Some n.
Proof.
  intros Hn.
  assert (Hall : forallb (fun k => match b64_value (b64_char (N.of_nat k)) with
                                   | Some m => N.eqb m (N.of_nat k)
                                   | None => false
                                   end) (seq 0 64) = true) by (vm_compute; reflexivity).
  rewrite forallb_forall in Hall.
  specialize (Hall (N.to_nat n)).
  rewrite N2Nat.id in Hall.
  destruct (b64_value (b64_char n)) as [m|].
  - f_equal. apply N.eqb_eq. apply Hall. apply in_seq. lia.
  - discriminate Hall. apply in_seq. lia.
Qed.

Lemma b64_value_pad : b64_value b64_pad = None.
Proof. reflexivity. Qed.

Lemma sextet1_lt (a : N) : (a < 256)%N -> (sextet1 a < 64)%N.
Proof. unfold sextet1. intros. n_arith. Qed.

Lemma sextet2_lt (a b : N) : (b < 256)%N -> (sextet2 a b < 64)%N.
Proof. unfold sextet2. intros. n_arith. Qed.

Lemma sextet3_lt (b c : N) : (c < 256)%N -> (sextet3 b c < 64)%N.
Proof. unfold sextet3. intros. n_arith. Qed.

Lemma sextet4_lt (c : N) : (sextet4 c < 64)%N.
Proof. unfold sextet4. n_arith. Qed.

Lemma byte1_sextets (x y : ascii) :
  byte1 (sextet1 (N_of_ascii x)) (sextet2 (N_of_ascii x) (N_of_ascii y)) = x.
Proof.
  pose proof (N_ascii_bounded x). pose proof (N_ascii_bounded y).
  rewrite <- (ascii_N_embedding x) at 3. unfold byte1, sextet1, sextet2.
  f_equal. n_arith.
Qed.

Lemma byte1_sextets_last (x : ascii) :
  byte1 (sextet1 (N_of_ascii x)) (sextet2 (N_of_ascii x) 0) = x.
Proof.
  pose proof (N_ascii_bounded x).
  rewrite <- (ascii_N_embedding x) at 3. unfold byte1, sextet1, sextet2.
  f_equal. n_arith.
Qed.

Lemma byte2_sextets (x y z : ascii) :
  byte2 (sextet2 (N_of_ascii x) (N_of_ascii y)) (sextet3 (N_of_ascii y) (N_of_ascii z)) = y.
Proof.
  pose proof (N_ascii_bounded y). pose proof (N_ascii_bounded z).
  rewrite <- (ascii_N_embedding y) at 3. unfold byte2, sextet2, sextet3.
  f_equal. n_arith.
Qed.

Lemma byte2_sextets_last (x y : ascii) :
  byte2 (sextet2 (N_of_ascii x) (N_of_ascii y)) (sextet3 (N_of_ascii y) 0) = y.
Proof.
  pose proof (N_ascii_bounded y).
  rewrite <- (ascii_N_embedding y) at 3. unfold byte2, sextet2, sextet3.
  f_equal. n_arith.
Qed.

Lemma byte3_sextets (y z : ascii) :
  byte3 (sextet3 (N_of_ascii y) (N_of_ascii z)) (sextet4 (N_of_ascii z)) = z.
Proof.
  pose proof (N_ascii_bounded z).
  rewrite <- (ascii_N_embedding z) at 3. unfold byte3, sextet3, sextet4.
  f_equal. n_arith.
Qed.

(** Induction on a byte string, three bytes at a time. *)
Lemma string_ind3 (P : string -> Prop) :
  P "" ->
  (forall x, P (String x "")) ->
  (forall x y, P (String x (String y ""))) ->
  (forall x y z s, P s -> P (String x (String y (String z s)))) ->
  forall s, P s.
Proof.
  intros H0 H1 H2 H3 s.
  enough (P s /\ (forall x, P (String x s)) /\ (forall x y, P (String x (String y s))))
    by tauto.
  induction s as [|c s (IH0 & IH1 & IH2)]; [now auto|].
  repeat split; auto.
Qed.

Lemma b64decode_b64encode (bs : bytes) : b64decode (b64encode bs) = Some bs.
Proof.
  induction bs as [|x|x y|x y z rest IH] using string_ind3.
  - reflexivity.
  - pose proof (N_ascii_bounded x) as Hx.
    cbn [b64encode b64decode].
    rewrite (b64_value_char _ (sextet1_lt _ Hx)).
    rewrite (b64_value_char (sextet2 _ 0)) by (apply sextet2_lt; reflexivity).
    rewrite b64_value_pad. cbn. now rewrite byte1_sextets_last.
  - pose proof (N_ascii_bounded x) as Hx. pose proof (N_ascii_bounded y) as Hy.
    cbn [b64encode b64decode].
    rewrite (b64_value_char _ (sextet1_lt _ Hx)), (b64_value_char _ (sextet2_lt _ _ Hy)).
    rewrite (b64_value_char (sextet3 _ 0)) by (apply sextet3_lt; reflexivity).
    rewrite b64_value_pad. cbn. now rewrite byte1_sextets, byte2_sextets_last.
  - pose proof (N_ascii_bounded x) as Hx. pose proof (N_ascii_bounded y) as Hy.
    pose proof (N_ascii_bounded z) as Hz.
    cbn [b64encode b64decode].
    rewrite (b64_value_char _ (sextet1_lt _ Hx)), (b64_value_char _ (sextet2_lt _ _ Hy)),
      (b64_value_char _ (sextet3_lt _ _ Hz)), (b64_value_char _ (sextet4_lt _)).
    rewrite IH. cbn. now rewrite byte1_sextets, byte2_sextets, byte3_sextets.
Qed.

(** ** Traces *)

Lemma requests_of_app (t1 t2 : trace) :
  requests_of (t1 ++ t2)%list = (requests_of t1 ++ requests_of t2)%list.
Proof. induction t1 as [|[l|l|rq] t1 IH]; simpl; congruence. Qed.

Lemma stdout_of_app (t1 t2 : trace) :
  stdout_of (t1 ++ t2)%list = (stdout_of t1 ++ stdout_of t2)%list.
Proof. induction t1 as [|[l|l|rq] t1 IH]; simpl; congruence. Qed.

Lemma stderr_of_app (t1 t2 : trace) :
  stderr_of (t1 ++ t2)%list = (stderr_of t1 ++ stderr_of t2)%list.
Proof. induction t1 as [|[l|l|rq] t1 IH]; simpl; congruence. Qed.

Lemma observe_requests (t1 t2 : trace) :
  map observe t1 = map observe t2 ->
  List.length (requests_of t1) = List.length (requests_of t2).
Proof.
  revert t2. induction t1 as [|e1 t1 IH]; intros [|e2 t2] H; simpl in H; try discriminate.
  - reflexivity.
  - injection H as He Ht. specialize (IH _ Ht).
    destruct e1, e2; simpl in *; try discriminate; congruence.
Qed.

Lemma observe_stdout (t1 t2 : trace) :
  map observe t1 = map observe t2 -> stdout_of t1 = stdout_of t2.
Proof.
  revert t2. induction t1 as [|e1 t1 IH]; intros [|e2 t2] H; simpl in H; try discriminate.
  - reflexivity.
  - injection H as He Ht. specialize (IH _ Ht).
    destruct e1, e2; simpl in *; try discriminate; congruence.
Qed.

(** Puts a trace built by successive prints in the form [t ++ events]. *)
Ltac trace_norm := repeat first [rewrite <- app_assoc | progress cbn [List.app map]].

(** ** Operations on values and computations *)

(** Case analysis on the scrutinee of an innermost [match] of the goal. *)
Ltac break_match :=
  match goal with
  | |- context [match ?x with _ => _ end] =>
      lazymatch x with
      | context [match _ with _ => _ end] => fail
      | _ => destruct x eqn:?
      end
  end.

Lemma py_in_no_exit item v e : py_in item v = Raise e -> ~ exits e.
Proof. destruct v; simpl; intros H; inversion H; simpl; tauto. Qed.

Lemma getitem_str_no_exit v key e : getitem_str v key = Raise e -> ~ exits e.
Proof.
  destruct v; simpl; try (intros H; inversion H; simpl; tauto).
  destruct (dict_lookup key kvs); intros H; inversion H; simpl; tauto.
Qed.

Lemma getitem_0_no_exit v e : getitem_0 v = Raise e -> ~ exits e.
Proof.
  destruct v; simpl; try (intros H; inversion H; simpl; tauto).
  - destruct (str_first s); intros H; inversion H; simpl; tauto.
  - destruct xs; intros H; inversion H; simpl; tauto.
Qed.

Lemma py_len_no_exit v e : py_len v = Raise e -> ~ exits e.
Proof. destruct v; simpl; intros H; inversion H; simpl; tauto. Qed.

Lemma py_get_no_exit v key d e : py_get v key d = Raise e -> ~ exits e.
Proof.
  destruct v; simpl; try (intros H; inversion H; simpl; tauto).
  destruct (dict_lookup key kvs); intros H; inversion H.
Qed.

Ltac no_exit :=
  match goal with
  | H : py_in _ _ = Raise ?e |- ~ exits ?e => exact (py_in_no_exit _ _ _ H)
  | H : getitem_str _ _ = Raise ?e |- ~ exits ?e => exact (getitem_str_no_exit _ _ _ H)
  | H : getitem_0 _ = Raise ?e |- ~ exits ?e => exact (getitem_0_no_exit _ _ H)
  | H : py_len _ = Raise ?e |- ~ exits ?e => exact (py_len_no_exit _ _ H)
  | H : py_get _ _ _ = Raise ?e |- ~ exits ?e => exact (py_get_no_exit _ _ _ _ H)
  end.

Lemma requests_of_stdout outs : requests_of (map Stdout outs) = [].
Proof. induction outs; simpl; auto. Qed.

Lemma requests_of_stderr errs : requests_of (map Stderr errs) = [].
Proof. induction errs; simpl; auto. Qed.

Lemma stderr_of_stdout outs : stderr_of (map Stdout outs) = [].
Proof. induction outs; simpl; auto. Qed.

Lemma dict_lookup_nonempty key kvs v : dict_lookup key kvs = Some v -> truthy (PyDict kvs) = true.
Proof. destruct kvs; [discriminate|reflexivity]. Qed.

Lemma sim_bind {A B} (m1 m2 : M A) (k1 k2 : A -> M B) :
  sim m1 m2 -> (forall a, sim (k1 a) (k2 a)) -> sim (bind m1 k1) (bind m2 k2).
Proof.
  intros Hm Hk t1 t2 Ht. unfold bind.
  destruct (Hm t1 t2 Ht) as [Ho Hs].
  destruct (m1 t1) as [o1 t1'], (m2 t2) as [o2 t2']. cbn [fst snd] in Ho, Hs. subst o2.
  destruct o1 as [a|e]; [now apply Hk|now split].
Qed.

(** ** Further properties of the libraries *)

(** X10. A URL that does not end with a slash is left as it is by the
    normalization [rstrip('/')] (so normalizing twice changes nothing
    more). *)
Theorem rstrip_keeps_unslashed (ch : ascii) (s : string) :
  ends_with ch s = false -> rstrip ch s = s.
Proof.
  induction s as [|c s IH]; [reflexivity|].
  destruct s as [|d s'].
  - simpl. now intros ->.
  - intros He. change (ends_with ch (String d s') = false) in He.
    cbn [rstrip] in *. rewrite (IH He). reflexivity.
Qed.

Lemma b64_symbol_char (n : N) : (n < 64)%N -> b64_symbol (b64_char n) = true.
Proof. intros Hn. unfold b64_symbol. now rewrite b64_value_char. Qed.

(** X11. The base64 text of the credentials is made of characters of the
    base64 alphabet and of the pad only (no space, control character or line
    break, whatever the credentials hold), and has 4 characters for every
    group of 3 bytes, the last group being padded. *)
Theorem b64encode_text (bs : bytes) :
  string_forall b64_symbol (b64encode bs) = true
  /\ String.length (b64encode bs) = (4 * ((String.length bs + 2) / 3))%nat.
Proof.
  induction bs as [|x|x y|x y z rest [IHs IHl]] using string_ind3.
  - split; reflexivity.
  - pose proof (N_ascii_bounded x) as Hx.
    split; [|reflexivity]. cbn [b64encode string_forall].
    rewrite (b64_symbol_char _ (sextet1_lt _ Hx)).
    rewrite (b64_symbol_char (sextet2 _ 0)) by (apply sextet2_lt; reflexivity).
    reflexivity.
  - pose proof (N_ascii_bounded x) as Hx. pose proof (N_ascii_bounded y) as Hy.
    split; [|reflexivity]. cbn [b64encode string_forall].
    rewrite (b64_symbol_char _ (sextet1_lt _ Hx)), (b64_symbol_char _ (sextet2_lt _ _ Hy)).
    rewrite (b64_symbol_char (sextet3 _ 0)) by (apply sextet3_lt; reflexivity).
    reflexivity.
  - pose proof (N_ascii_bounded x) as Hx. pose proof (N_ascii_bounded y) as Hy.
    pose proof (N_ascii_bounded z) as Hz.
    split.
    + cbn [b64encode string_forall].
      rewrite (b64_symbol_char _ (sextet1_lt _ Hx)), (b64_symbol_char _ (sextet2_lt _ _ Hy)),
        (b64_symbol_char _ (sextet3_lt _ _ Hz)), (b64_symbol_char _ (sextet4_lt _)).
      exact IHs.
    + cbn [b64encode String.length]. rewrite IHl.
      replace (S (S (S (String.length rest))) + 2)%nat
        with (String.length rest + 2 + 1 * 3)%nat by lia.
      rewrite Nat.div_add by lia. lia.
Qed.

Lemma b64encode_injective (a b : bytes) : b64encode a = b64encode b -> a = b.
Proof.
  intros Hab.
  assert (Hd : b64decode (b64encode a) = b64decode (b64encode b)) by now rewrite Hab.
  rewrite !b64decode_b64encode in Hd. now injection Hd.
Qed.

(** ** Exchanges *)

Lemma requests_of_exchanges rqs lines :
  List.length lines = List.length rqs -> requests_of (exchanges rqs lines) = rqs.
Proof.
  revert lines. induction rqs as [|rq rqs IH]; intros [|l lines] Hlen;
    simpl in *; try discriminate; auto.
  f_equal. apply IH. congruence.
Qed.

Lemma stdout_of_exchanges rqs lines :
  List.length lines = List.length rqs -> stdout_of (exchanges rqs lines) = lines.
Proof.
  revert lines. induction rqs as [|rq rqs IH]; intros [|l lines] Hlen;
    simpl in *; try discriminate; auto.
  f_equal. apply IH. congruence.
Qed.

Lemma stderr_of_exchanges rqs lines : stderr_of (exchanges rqs lines) = [].
Proof.
  revert lines. induction rqs as [|rq rqs IH]; intros [|l lines]; simpl; auto.
Qed.

Lemma loop_requests_shift args u (i : Z) (n : nat) :
  map (fun k => loop_request args u (i + Z.of_nat k)) (seq 0 (S n))
  = loop_request args u i
    :: map (fun k => loop_request args u (i + 1 + Z.of_nat k)) (seq 0 n).
Proof.
  cbn [seq map]. rewrite Z.add_0_r. f_equal.
  rewrite <- seq_shift, map_map. apply map_ext. intros k. f_equal. lia.
Qed.

Lemma loop_requests_snoc args u (i : Z) (n : nat) :
  map (fun k => loop_request args u (i + Z.of_nat k)) (seq 0 (S n))
  = (map (fun k => loop_request args u (i + Z.of_nat k)) (seq 0 n)
     ++ [loop_request args u (i + Z.of_nat n)])%list.
Proof. now rewrite seq_S, map_app. Qed.

(** ** The errors of the operations on values *)

Lemma py_in_raises key v e : py_in key v = Raise e -> exists msg, e = TypeError msg.
Proof. destruct v; simpl; intros Hr; inversion Hr; eauto. Qed.

Lemma py_len_raises v e : py_len v = Raise e -> exists msg, e = TypeError msg.
Proof. destruct v; simpl; intros Hr; inversion Hr; eauto. Qed.

Lemma py_get_raises v key d e : py_get v key d = Raise e -> exists msg, e = AttributeError msg.
Proof.
  destruct v; simpl; try (intros Hr; inversion Hr; eauto; fail).
  destruct (dict_lookup key kvs); discriminate.
Qed.

(** After a membership test that succeeded, indexing by the same key does
    not raise [KeyError]. *)
Lemma getitem_str_after_in key v e :
  py_in key v = Ret true -> getitem_str v key = Raise e -> exists msg, e = TypeError msg.
Proof.
  destruct v; simpl; try discriminate; try (intros _ Hr; inversion Hr; eauto; fail).
  unfold has_key. destruct (dict_lookup key kvs); discriminate.
Qed.

(** After a length test that succeeded, index 0 is in range. *)
Lemma getitem_0_after_len v n e :
  py_len v = Ret n -> (0 <? n)%Z = true -> getitem_0 v = Raise e -> e = KeyError (PyInt 0).
Proof.
  destruct v; simpl; try discriminate.
  - intros [= <-] Hn. destruct s; [discriminate|]. discriminate.
  - intros [= <-] Hn. destruct xs; [discriminate|]. discriminate.
  - intros _ _ [= <-]. reflexivity.
Qed.

(** ** The command line *)

Lemma option_name_eqb_refl (o : option_name) : option_name_eqb o o = true.
Proof. now destruct o. Qed.

Lemma observe_stderr (t1 t2 : trace) :
  map observe t1 = map observe t2 -> stderr_of t1 = stderr_of t2.
Proof.
  revert t2. induction t1 as [|e1 t1 IH]; intros [|e2 t2] Hobs; simpl in Hobs;
    try discriminate.
  - reflexivity.
  - injection Hobs as He Ht. specialize (IH _ Ht).
    destruct e1, e2; simpl in *; try discriminate; congruence.
Qed.

(** * Properties of the program *)

Section ProducerProperties.

Context `{Interp}.

(** ** One call of [produce_message_rest] *)

Ltac shape_done :=
  split; [reflexivity|];
  split; [first [discriminate | reflexivity] | first [discriminate | intros ? [= <-]; simpl; tauto]].

(** Whatever the network does, a call causes exactly one request, the one
    built from the arguments, and then only lines on stderr, none when it
    returns. *)
Lemma produce_message_rest_shape net u tp usr pw msg (t : trace) :
  exists o errs,
    produce_message_rest net u tp usr pw msg t
    = (o, (t ++ Post (sent_request u tp usr pw msg) :: map Stderr errs)%list)
    /\ (forall v, o = Ret v -> errs = [])
    /\ (forall e, o = Raise e -> ~ exits e).
Proof.
  unfold produce_message_rest, try_except, bind, requests_post, raise_for_status,
    response_json, sent_request, decode, encode.
  destruct (net _) as [r|m resp|]; simpl.
  - destruct ((400 <=? status_code r)%Z && (status_code r <? 500)%Z); simpl.
    { exists (Raise (RequestException (http_error_msg "Client" r) (Some r))).
      eexists [_; _; _]. unfold print_err, raise. trace_norm.
      shape_done. }
    destruct ((500 <=? status_code r)%Z && (status_code r <? 600)%Z); simpl.
    { exists (Raise (RequestException (http_error_msg "Server" r) (Some r))).
      eexists [_; _; _]. unfold print_err, raise. trace_norm.
      shape_done. }
    destruct (json_body r) as [v|m]; simpl.
    + exists (Ret v), []. shape_done.
    + exists (Raise (RequestException m None)). eexists [_].
      unfold print_err, raise, ret. trace_norm.
      shape_done.
  - exists (Raise (RequestException m resp)).
    destruct resp as [r|]; [eexists [_; _; _]|eexists [_]];
      unfold print_err, raise, ret; trace_norm;
      shape_done.
  - exists (Raise KeyboardInterrupt), [].
    shape_done.
Qed.

(** A response with a status 400 to 599 makes the call print the error, the
    status and the body on stderr and raise. *)
Lemma produce_message_rest_http_error net u tp usr pw msg (t : trace) (r : response) :
  net (List.length (requests_of t)) = Responds r ->
  (400 <= status_code r < 600)%Z ->
  produce_message_rest net u tp usr pw msg t
  = (Raise (RequestException (http_error_of r) (Some r)),
     (t ++ [Post (sent_request u tp usr pw msg);
            Stderr ("❌ REST API error: " ++ http_error_of r);
            Stderr ("   Status: " ++ str_int (status_code r));
            Stderr ("   Response: " ++ text r)])%list).
Proof.
  intros Hnet Hst.
  unfold produce_message_rest, try_except, bind, requests_post, raise_for_status,
    http_error_of, sent_request, decode, encode.
  rewrite Hnet. simpl.
  destruct (status_code r <? 500)%Z eqn:E500.
  - replace (400 <=? status_code r)%Z with true by (symmetry; apply Z.leb_le; lia).
    simpl. unfold print_err, raise. trace_norm. reflexivity.
  - rewrite andb_false_r.
    replace (500 <=? status_code r)%Z with true
      by (symmetry; apply Z.leb_le; apply Z.ltb_ge in E500; lia).
    replace (status_code r <? 600)%Z with true by (symmetry; apply Z.ltb_lt; lia).
    simpl. unfold print_err, raise. trace_norm. reflexivity.
Qed.

(** A response with any other status and a JSON body makes the call return
    the parsed body, with nothing printed. *)
Lemma produce_message_rest_returns net u tp usr pw msg (t : trace) (r : response) (v : value) :
  net (List.length (requests_of t)) = Responds r ->
  ~ (400 <= status_code r < 600)%Z ->
  json_body r = JsonValue v ->
  produce_message_rest net u tp usr pw msg t
  = (Ret v, (t ++ [Post (sent_request u tp usr pw msg)])%list).
Proof.
  intros Hnet Hst Hjson.
  unfold produce_message_rest, try_except, bind, requests_post, raise_for_status,
    response_json, sent_request, decode, encode.
  rewrite Hnet. simpl.
  replace ((400 <=? status_code r)%Z && (status_code r <? 500)%Z) with false
    by (symmetry; apply andb_false_iff; rewrite Z.leb_gt, Z.ltb_ge; lia).
  replace ((500 <=? status_code r)%Z && (status_code r <? 600)%Z) with false
    by (symmetry; apply andb_false_iff; rewrite Z.leb_gt, Z.ltb_ge; lia).
  simpl. now rewrite Hjson.
Qed.

(** ** What [main] does with a result *)

(** Reporting a result prints at most one line, on stdout, and issues no
    request; when it raises, nothing is printed. *)
Lemma report_shape args i v (t : trace) :
  exists o outs,
    report args i v t = (o, (t ++ map Stdout outs)%list)
    /\ (forall e, o = Raise e -> ~ exits e).
Proof.
  unfold report, has_metadata, has_offsets, bind, lift, ret, print.
  repeat (break_match; simpl);
    first [ eexists _, []; rewrite app_nil_r; split;
            [reflexivity | intros ? [= <-]; no_exit]
          | eexists _, [_]; split; [reflexivity | discriminate] ].
Qed.

(** ** The loop *)

(** One iteration issues exactly one request, the one for message [i]; an
    iteration that completes prints nothing on stderr. *)
Lemma loop_body_shape net args u i (t : trace) :
  exists o evs,
    loop_body net args u i t
    = (o, (t ++ Post (sent_request u (topic args) (username args) (password args)
                        (message_text args i)) :: evs)%list)
    /\ requests_of evs = []
    /\ (o = Ret tt -> stderr_of evs = [])
    /\ (forall e, o = Raise e -> ~ exits e).
Proof.
  unfold loop_body, bind.
  destruct (produce_message_rest_shape net u (topic args) (username args) (password args)
              (message_text args i) t) as (o & errs & -> & Hret & Hexc).
  destruct o as [v|e].
  - rewrite (Hret v eq_refl). simpl.
    destruct (report_shape args i v
                (t ++ [Post (sent_request u (topic args) (username args) (password args)
                         (message_text args i))])%list) as (o' & outs & -> & Hex).
    exists o', (map Stdout outs). trace_norm.
    split; [reflexivity|]. split; [apply requests_of_stdout|].
    split; [intros _; apply stderr_of_stdout | exact Hex].
  - exists (Raise e), (map Stderr errs).
    split; [reflexivity|]. split; [apply requests_of_stderr|].
    split; [discriminate | intros e' [= <-]; now apply Hexc].
Qed.


(** The loop issues the requests of consecutive messages, stops at the first
    iteration that raises, and prints nothing on stderr when it completes. *)
Lemma for_range_shape net args u n i (t : trace) :
  exists o evs m,
    for_range n i (loop_body net args u) t = (o, (t ++ evs)%list)
    /\ (m <= n)%nat
    /\ requests_of evs
       = map (fun k => sent_request u (topic args) (username args) (password args)
                         (message_text args (i + Z.of_nat k))) (seq 0 m)
    /\ (o = Ret tt -> m = n /\ stderr_of evs = [])
    /\ (forall e, o = Raise e -> ~ exits e).
Proof.
  revert i t. induction n as [|n IH]; intros i t; simpl.
  - exists (Ret tt), [], O. unfold ret. rewrite app_nil_r.
    repeat split; auto; discriminate.
  - unfold bind.
    destruct (loop_body_shape net args u i t) as (o1 & evs1 & -> & Hrq & Herr & Hex).
    destruct o1 as [[]|e].
    + destruct (IH (i + 1)%Z
                  (t ++ Post (sent_request u (topic args) (username args) (password args)
                                (message_text args i)) :: evs1)%list)
        as (o & evs & m & -> & Hm & Hreqs & Hret & Hexc).
      exists o, (Post (sent_request u (topic args) (username args) (password args)
                         (message_text args i)) :: evs1 ++ evs)%list, (S m).
      split; [now rewrite <- app_assoc|].
      split; [lia|].
      split.
      * simpl. rewrite requests_of_app, Hrq, Hreqs, Z.add_0_r. simpl. f_equal.
        rewrite <- seq_shift, map_map. apply map_ext. intros k.
        do 2 f_equal. lia.
      * split; [|exact Hexc].
        intros Ho. destruct (Hret Ho) as [-> Hse]. split; [reflexivity|].
        simpl. now rewrite stderr_of_app, (Herr eq_refl), Hse.
    + exists (Raise e), (Post (sent_request u (topic args) (username args) (password args)
                                 (message_text args i)) :: evs1), 1%nat.
      split; [reflexivity|]. split; [lia|].
      split; [simpl; now rewrite Hrq, Z.add_0_r|].
      split; [discriminate|exact Hex].
Qed.

(** ** The whole of [main] after argument parsing *)

(** [main] in terms of what its loop does. *)
Lemma main_body_loop net args (o : outcome unit) (t1 : trace) :
  for_in_range (count args) (loop_body net args (rstrip "/" (rest_api_url args)))
    (banner args) = (o, t1) ->
  main_body net args []
  = match o with
    | Ret _ => (Ret tt, (t1 ++ [Stdout "✅ All messages sent and delivered"])%list)
    | Raise e =>
        if is_KeyboardInterrupt e then
          (Raise (SystemExit 1), (t1 ++ [Stdout (String "010" "⚠️  Interrupted")])%list)
        else if is_Exception e then
          (Raise (SystemExit 1), (t1 ++ [Stderr ("❌ Error: " ++ exc_str e)])%list)
        else (Raise e, t1)
    end.
Proof.
  intros Hloop. unfold main_body, try_except, bind, print. simpl.
  unfold banner in Hloop. simpl in Hloop. rewrite Hloop.
  destruct o as [[]|e]; [reflexivity|].
  destruct e; reflexivity.
Qed.

(** The requests of a run are those of the messages 0, 1, ... in order, at
    most [count] of them, and all of them when the run ends with status 0;
    the status is 0 or 1. *)
Lemma run_body_requests net args :
  exists m,
    (m <= Z.to_nat (count args))%nat
    /\ requests_of (fst (run_body net args)) = map (nth_request args) (seq 0 m)
    /\ (snd (run_body net args) = 0%Z -> m = Z.to_nat (count args))
    /\ (snd (run_body net args) = 0%Z \/ snd (run_body net args) = 1%Z).
Proof.
  unfold run_body.
  destruct (for_range_shape net args (rstrip "/" (rest_api_url args))
              (Z.to_nat (count args)) 0%Z (banner args))
    as (o & evs & m & Hloop & Hm & Hreqs & Hret & Hexc).
  rewrite (main_body_loop net args o _ Hloop).
  exists m. split; [exact Hm|].
  assert (Hb : requests_of (banner args ++ evs)%list = map (nth_request args) (seq 0 m)).
  { rewrite requests_of_app, Hreqs. reflexivity. }
  destruct o as [[]|e].
  - cbn [fst snd exit_code]. rewrite requests_of_app, Hb. simpl. rewrite app_nil_r.
    destruct (Hret eq_refl) as [-> _]. repeat split; auto.
  - specialize (Hexc e eq_refl).
    destruct e; cbn [fst snd exit_code is_KeyboardInterrupt is_Exception exits] in *;
      try tauto;
      rewrite ?requests_of_app, ?Hb; simpl; rewrite ?app_nil_r;
      (repeat split; auto; discriminate).
Qed.


(** ** The requests of a run *)

(** C1. Every HTTP request [produce_message_rest] issues is a POST to
    [{normalized_base_url}/topics/{topic}/records] with the headers
    [Content-Type: application/json] and
    [Authorization: Basic <base64(username:password)>], and with the JSON
    body [{"records": [{"value": <message text>}]}], which holds exactly one
    record: a call issues exactly that one request whatever the network
    answers, and the requests of a run are those of its messages, in order. *)
Theorem requests_are_record_posts net args :
  (forall u tp usr pw msg (t : trace),
     requests_of (snd (produce_message_rest net u tp usr pw msg t))
     = List.app (requests_of t)
          [{| method := "POST";
               url := u ++ "/topics/" ++ tp ++ "/records";
               headers := [("Content-Type", "application/json");
                           ("Authorization", "Basic " ++ b64encode (usr ++ ":" ++ pw))];
               json := PyDict [("records", PyList [PyDict [("value", PyStr msg)]])];
               verify := false;
               timeout := 30 |}])
  /\ requests_of (fst (run_body net args))
     = map (fun k =>
              {| method := "POST";
                 url := rstrip "/" (rest_api_url args) ++ "/topics/" ++ topic args
                        ++ "/records";
                 headers := [("Content-Type", "application/json");
                             ("Authorization",
                              "Basic " ++ b64encode (username args ++ ":" ++ password args))];
                 json := PyDict [("records",
                                  PyList [PyDict [("value",
                                                   PyStr (message_text args (Z.of_nat k)))]])];
                 verify := false;
                 timeout := 30 |})
         (seq 0 (List.length (requests_of (fst (run_body net args))))).
Proof.
  split.
  - intros u tp usr pw msg t.
    destruct (produce_message_rest_shape net u tp usr pw msg t) as (o & errs & -> & _).
    cbn [snd]. rewrite requests_of_app. simpl. now rewrite requests_of_stderr.
  - destruct (run_body_requests net args) as (m & _ & Hreqs & _).
    rewrite Hreqs at 2. rewrite length_map, length_seq. exact Hreqs.
Qed.

(** C4. When [count] is 1 the message text of the request is the template
    verbatim; otherwise the text of the i-th request (from 1) is the template
    followed by [ (i/count)].  A run issues at most [count] requests, and
    exactly [count] when it ends with status 0. *)
Theorem request_message_text net args (k : nat) (rq : request) :
  nth_error (requests_of (fst (run_body net args))) k = Some rq ->
  json rq
  = PyDict [("records",
             PyList [PyDict [("value",
                PyStr (if (count args =? 1)%Z then message args
                       else message args ++ " (" ++ str_int (Z.of_nat k + 1) ++ "/"
                            ++ str_int (count args) ++ ")"))]])]
  /\ (Z.of_nat k < count args)%Z
  /\ (snd (run_body net args) = 0%Z ->
      List.length (requests_of (fst (run_body net args))) = Z.to_nat (count args)).
Proof.
  intros Hk.
  destruct (run_body_requests net args) as (m & Hm & Hreqs & Hall & _).
  rewrite Hreqs in Hk |- *. rewrite length_map, length_seq.
  assert (Hkm : (k < m)%nat).
  { assert (Hn : nth_error (map (nth_request args) (seq 0 m)) k <> None) by congruence.
    apply nth_error_Some in Hn. now rewrite length_map, length_seq in Hn. }
  rewrite nth_error_map, nth_error_seq in Hk.
  replace (k <? m)%nat with true in Hk by (symmetry; now apply Nat.ltb_lt).
  simpl in Hk. injection Hk as <-.
  split; [reflexivity|]. split; [lia|exact Hall].
Qed.

(** C5. The [Authorization] header of every request is [Basic ] followed by
    base64 text that decodes to exactly the bytes of [username:password]. *)
Theorem authorization_decodes_to_credentials net args (rq : request) :
  In rq (requests_of (fst (run_body net args))) ->
  exists b64,
    header "Authorization" (headers rq) = Some ("Basic " ++ b64)
    /\ b64decode b64 = Some (username args ++ ":" ++ password args).
Proof.
  intros Hin.
  destruct (run_body_requests net args) as (m & _ & Hreqs & _).
  rewrite Hreqs in Hin. apply in_map_iff in Hin as (k & <- & _).
  exists (b64encode (username args ++ ":" ++ password args)).
  split; [reflexivity|apply b64decode_b64encode].
Qed.


(** C7. With [count <= 0] the program issues no HTTP request, prints the
    overall success summary after the banner, and exits with status 0. *)
Theorem nonpositive_count_is_vacuous_success net args :
  (count args <= 0)%Z ->
  run_body net args
  = ((banner args ++ [Stdout "✅ All messages sent and delivered"])%list, 0%Z)
  /\ requests_of (fst (run_body net args)) = [].
Proof.
  intros Hc.
  assert (Hrun : run_body net args
                 = ((banner args ++ [Stdout "✅ All messages sent and delivered"])%list, 0%Z)).
  { unfold run_body.
    rewrite (main_body_loop net args (Ret tt) (banner args)); [reflexivity|].
    unfold for_in_range. replace (Z.to_nat (count args)) with O by lia. reflexivity. }
  split; [exact Hrun|]. rewrite Hrun. reflexivity.
Qed.


Lemma run_body_loop_requests net args (o : outcome unit) (t1 : trace) :
  for_in_range (count args) (loop_body net args (rstrip "/" (rest_api_url args)))
    (banner args) = (o, t1) ->
  requests_of (fst (run_body net args)) = requests_of t1.
Proof.
  intros Hloop. unfold run_body. rewrite (main_body_loop net args o t1 Hloop).
  destruct o as [[]|e]; [|destruct e]; cbn [fst is_KeyboardInterrupt is_Exception];
    rewrite ?requests_of_app; simpl; now rewrite ?app_nil_r.
Qed.

(** ** HTTP errors *)

(** If request number [k] of the loop (from 0) is issued and is answered
    with a status 400 to 599, the loop stops there by raising, after the
    three lines of [produce_message_rest] on stderr. *)
Lemma for_range_http_error net args u (r : response) n :
  forall i (t : trace) k,
    (k < n)%nat ->
    net (List.length (requests_of t) + k)%nat = Responds r ->
    (400 <= status_code r < 600)%Z ->
    (List.length (requests_of t) + k
     < List.length (requests_of (snd (for_range n i (loop_body net args u) t))))%nat ->
    exists evs rq,
      for_range n i (loop_body net args u) t
      = (Raise (RequestException (http_error_of r) (Some r)),
         (t ++ evs ++ [Post rq;
                       Stderr ("❌ REST API error: " ++ http_error_of r);
                       Stderr ("   Status: " ++ str_int (status_code r));
                       Stderr ("   Response: " ++ text r)])%list)
      /\ List.length (requests_of evs) = k
      /\ stderr_of evs = [].
Proof.
  induction n as [|n IH]; intros i t k Hk Hnet Hst Hissued; [lia|].
  cbn [for_range] in *. unfold bind in *.
  destruct k as [|k].
  - rewrite Nat.add_0_r in Hnet. unfold loop_body, bind.
    rewrite (produce_message_rest_http_error net _ _ _ _ _ t r Hnet Hst).
    exists [], (sent_request u (topic args) (username args) (password args)
                  (message_text args i)).
    repeat split; reflexivity.
  - destruct (loop_body_shape net args u i t) as (o1 & evs1 & Hbody & Hrq & Herr & _).
    rewrite Hbody in *.
    set (rq1 := sent_request u (topic args) (username args) (password args)
                  (message_text args i)) in *.
    assert (Hlen1 : List.length (requests_of (t ++ Post rq1 :: evs1)%list)
                    = S (List.length (requests_of t))).
    { rewrite requests_of_app. simpl. rewrite Hrq, length_app. simpl. lia. }
    destruct o1 as [[]|e].
    + destruct (IH (i + 1)%Z (t ++ Post rq1 :: evs1)%list k) as (evs & rq & -> & Hlen & Hse).
      * lia.
      * rewrite Hlen1. now replace (S (List.length (requests_of t)) + k)%nat
          with (List.length (requests_of t) + S k)%nat by lia.
      * exact Hst.
      * rewrite Hlen1. lia.
      * exists (Post rq1 :: evs1 ++ evs)%list, rq.
        split; [now trace_norm|].
        split.
        -- simpl. rewrite requests_of_app, Hrq. simpl. now rewrite Hlen.
        -- simpl. now rewrite stderr_of_app, (Herr eq_refl), Hse.
    + exfalso. cbn [snd] in Hissued. rewrite Hlen1 in Hissued. lia.
Qed.

(** C2 (amended). If the j-th request of a run (1 <= j <= count) is
    answered with a status 400 to 599, exactly j requests have been
    attempted, the status code and the response body are on stderr, and the
    process exits with status 1. *)
Theorem http_error_aborts_run net args (j : nat) (r : response) :
  (1 <= j)%nat ->
  (Z.of_nat j <= count args)%Z ->
  (j <= List.length (requests_of (fst (run_body net args))))%nat ->
  net (j - 1)%nat = Responds r ->
  (400 <= status_code r < 600)%Z ->
  List.length (requests_of (fst (run_body net args))) = j
  /\ snd (run_body net args) = 1%Z
  /\ stderr_of (fst (run_body net args))
     = ["❌ REST API error: " ++ http_error_of r;
        "   Status: " ++ str_int (status_code r);
        "   Response: " ++ text r;
        "❌ Error: " ++ http_error_of r].
Proof.
  intros Hj Hcount Hissued Hnet Hst.
  pose proof (run_body_loop_requests net args _ _
                (surjective_pairing
                   (for_in_range (count args)
                      (loop_body net args (rstrip "/" (rest_api_url args)))
                      (banner args)))) as Hreq.
  rewrite Hreq in Hissued. unfold for_in_range in Hissued.
  destruct (for_range_http_error net args (rstrip "/" (rest_api_url args)) r
              (Z.to_nat (count args)) 0%Z (banner args) (j - 1)%nat)
    as (evs & rq & Hrun & Hlen & Hse).
  - lia.
  - exact Hnet.
  - exact Hst.
  - cbn [banner requests_of List.length Nat.add]. lia.
  - unfold run_body.
    rewrite (main_body_loop net args _ _ Hrun).
    cbn [fst snd exit_code is_KeyboardInterrupt is_Exception exc_str].
    rewrite !requests_of_app, !stderr_of_app, !length_app, Hlen, Hse.
    cbn [banner requests_of stderr_of List.length List.app Nat.add].
    split; [lia|]. split; reflexivity.
Qed.


(** ** The three ways a result is reported *)

(** A [dict] with a [metadata] entry that is itself a [dict]: partition and
    offset come from it, [?] standing for an absent one. *)
Lemma report_metadata args i kvs md (t : trace) :
  dict_lookup "metadata" kvs = Some (PyDict md) ->
  report args i (PyDict kvs) t
  = (Ret tt, (t ++ [Stdout (delivered_line args i (get_or_placeholder "partition" md)
                              (get_or_placeholder "offset" md))])%list).
Proof.
  intros Hmd. unfold report, has_metadata, bind, lift, ret, print.
  rewrite (dict_lookup_nonempty _ _ _ Hmd).
  unfold py_in, has_key, getitem_str, py_get, get_or_placeholder. rewrite Hmd.
  destruct (dict_lookup "partition" md), (dict_lookup "offset" md); reflexivity.
Qed.

(** A [dict] without [metadata] whose [offsets] entry is a non-empty list
    that starts with a [dict]: partition and offset come from that one. *)
Lemma report_offsets args i kvs info rest (t : trace) :
  dict_lookup "metadata" kvs = None ->
  dict_lookup "offsets" kvs = Some (PyList (PyDict info :: rest)) ->
  report args i (PyDict kvs) t
  = (Ret tt, (t ++ [Stdout (delivered_line args i (get_or_placeholder "partition" info)
                              (get_or_placeholder "offset" info))])%list).
Proof.
  intros Hmd Hoff. unfold report, has_metadata, has_offsets, bind, lift, ret, print.
  rewrite (dict_lookup_nonempty _ _ _ Hoff).
  unfold py_in, has_key, getitem_str, py_len, getitem_0, py_get, get_or_placeholder.
  rewrite Hmd, Hoff. cbn [List.length].
  replace (0 <? Z.of_nat (S (List.length rest)))%Z with true by (symmetry; apply Z.ltb_lt; lia).
  destruct (dict_lookup "partition" info), (dict_lookup "offset" info); reflexivity.
Qed.

(** A result that is false ([None], [{}], [[]], ...), or a [dict] with
    neither [metadata] nor a non-empty [offsets] list: the generic line. *)
Lemma report_generic_falsy args i v (t : trace) :
  truthy v = false ->
  report args i v t = (Ret tt, (t ++ [Stdout (sent_line i v)])%list).
Proof.
  intros Hv. unfold report, has_metadata, has_offsets, bind, lift, ret, print.
  now rewrite Hv.
Qed.

Lemma report_generic_dict args i kvs (t : trace) :
  dict_lookup "metadata" kvs = None ->
  dict_lookup "offsets" kvs = None \/ dict_lookup "offsets" kvs = Some (PyList []) ->
  report args i (PyDict kvs) t = (Ret tt, (t ++ [Stdout (sent_line i (PyDict kvs))])%list).
Proof.
  intros Hmd Hoff. unfold report, has_metadata, has_offsets, bind, lift, ret, print.
  unfold py_in, has_key, getitem_str, py_len. rewrite Hmd.
  destruct (truthy (PyDict kvs)); [|reflexivity].
  destruct Hoff as [-> | ->]; reflexivity.
Qed.

(** A [str] that contains [metadata] passes the membership test and then
    cannot be indexed by a [str]. *)
Lemma report_str_metadata args i s (t : trace) :
  str_contains "metadata" s = true ->
  report args i (PyStr s) t
  = (Raise (TypeError "string indices must be integers, not 'str'"), t).
Proof.
  intros Hs. unfold report, has_metadata, bind, lift.
  cbn [truthy]. rewrite (str_contains_nonempty "metadata" s) by (auto; discriminate).
  cbn [negb py_in]. rewrite Hs. reflexivity.
Qed.

(** A run whose first response is accepted but whose result makes [report]
    raise ends with that error on stderr and with status 1. *)
Lemma run_body_first_report_raises net args (r : response) (v : value) (e : exc) :
  (1 <= count args)%Z ->
  net O = Responds r ->
  ~ (400 <= status_code r < 600)%Z ->
  json_body r = JsonValue v ->
  (forall t, report args 0 v t = (Raise e, t)) ->
  is_KeyboardInterrupt e = false ->
  is_Exception e = true ->
  run_body net args
  = ((banner args ++ [Post (nth_request args 0); Stderr ("❌ Error: " ++ exc_str e)])%list,
     1%Z).
Proof.
  intros Hc Hnet Hst Hjson Hrep Hki Hex. unfold run_body.
  rewrite (main_body_loop net args (Raise e) (banner args ++ [Post (nth_request args 0)])%list).
  - rewrite Hki, Hex. cbn [exit_code]. now rewrite <- app_assoc.
  - unfold for_in_range.
    destruct (Z.to_nat (count args)) as [|n] eqn:En; [lia|].
    cbn [for_range]. unfold bind at 1. unfold loop_body at 1. unfold bind at 1.
    rewrite (produce_message_rest_returns net _ _ _ _ _ (banner args) r v Hnet Hst Hjson).
    fold (nth_request args 0). now rewrite Hrep.
Qed.

(** C10. A response with a 2xx status whose JSON body is a string that
    contains [metadata] (the JSON string ["metadata"] for one) passes the
    membership test ['metadata' in result], then [result['metadata']]
    raises, and the run prints an error and exits with status 1 without a
    success line for the message. *)
Theorem json_string_with_metadata_aborts net args (r : response) (s : string) :
  (1 <= count args)%Z ->
  net O = Responds r ->
  (200 <= status_code r < 300)%Z ->
  json_body r = JsonValue (PyStr s) ->
  str_contains "metadata" s = true ->
  py_in "metadata" (PyStr s) = Ret true
  /\ getitem_str (PyStr s) "metadata"
     = Raise (TypeError "string indices must be integers, not 'str'")
  /\ run_body net args
     = ((banner args
         ++ [Post (nth_request args 0);
             Stderr "❌ Error: string indices must be integers, not 'str'"])%list,
        1%Z)
  /\ stdout_of (fst (run_body net args)) = stdout_of (banner args).
Proof.
  intros Hc Hnet Hst Hjson Hs.
  assert (Hrun : run_body net args
                 = ((banner args
                     ++ [Post (nth_request args 0);
                         Stderr "❌ Error: string indices must be integers, not 'str'"])%list,
                    1%Z)).
  { apply (run_body_first_report_raises net args r (PyStr s)
             (TypeError "string indices must be integers, not 'str'"));
      auto; [lia|]. intros t. now apply report_str_metadata. }
  split; [cbn [py_in]; now rewrite Hs|].
  split; [reflexivity|].
  split; [exact Hrun|].
  rewrite Hrun. cbn [fst]. rewrite stdout_of_app. cbn [stdout_of]. apply app_nil_r.
Qed.

(** ** Argument parsing *)

(** A command line that does not stop the parser is consumed without any
    output; the state then holds the text last given for each option, the
    conversion of the last [--count], and the unrecognised arguments. *)
Lemma consume_passes inv :
  forall (st : parse_state) (t : trace),
    passes inv = true ->
    exists st',
      consume inv st t = (Ret st', t)
      /\ (forall o, given st' o = match last_given o inv with
                                  | Some v => Some v
                                  | None => given st o
                                  end)
      /\ extras st' = (extras st ++ unrecognized_of inv)%list
      /\ match last_given OptCount inv with
         | Some s => py_int s = Some (count_value st')
         | None => count_value st' = count_value st
         end.
Proof.
  induction inv as [|a rest IH]; intros st t Hp.
  - exists st. cbn. now rewrite app_nil_r.
  - cbn [passes forallb] in Hp. apply andb_prop in Hp as [Ha Hrest].
    fold (passes rest) in Hrest.
    destruct a as [|o v|msg|s]; try discriminate.
    + destruct o;
        try (cbn [consume last_given unrecognized_of];
             match goal with
             | |- context [consume rest ?st2 t] =>
                 destruct (IH st2 t Hrest) as (st' & -> & Hg & He & Hc)
             end;
             exists st'; split; [reflexivity|]; split;
             [intros o'; rewrite Hg; cbn [given set_given];
              destruct (last_given o' rest); [reflexivity|];
              destruct o'; reflexivity
             |split; [exact He|destruct (last_given OptCount rest); exact Hc]]; fail).
      cbn [consume last_given unrecognized_of option_name_eqb].
      cbn in Ha. destruct (py_int v) as [z|] eqn:Hz; [|discriminate Ha].
      destruct (IH (set_count z (set_given OptCount v st)) t Hrest)
        as (st' & -> & Hg & He & Hc).
      exists st'. split; [reflexivity|]. split; [|split; [exact He|]].
      * intros o'. rewrite Hg. cbn [given set_count set_given].
        destruct (last_given o' rest); [reflexivity|]. destruct o'; reflexivity.
      * destruct (last_given OptCount rest); [exact Hc|].
        cbn [count_value set_count] in Hc. now rewrite Hc.
    + cbn [consume last_given unrecognized_of].
      destruct (IH (add_extra s st) t Hrest) as (st' & -> & Hg & He & Hc).
      exists st'. split; [reflexivity|]. split; [|split].
      * intros o'. rewrite Hg. cbn [given add_extra].
        now destruct (last_given o' rest).
      * rewrite He. cbn [extras add_extra]. now rewrite <- app_assoc.
      * destruct (last_given OptCount rest); exact Hc.
Qed.


(** A run whose [count] is 1 attempts exactly one request. *)
Lemma run_body_single_request net args :
  count args = 1%Z ->
  requests_of (fst (run_body net args)) = [nth_request args 0].
Proof.
  intros Hc.
  rewrite (run_body_loop_requests net args _ _
             (surjective_pairing
                (for_in_range (count args)
                   (loop_body net args (rstrip "/" (rest_api_url args))) (banner args)))).
  unfold for_in_range. rewrite Hc. change (Z.to_nat 1) with 1%nat.
  cbn [for_range]. unfold bind.
  destruct (loop_body_shape net args (rstrip "/" (rest_api_url args)) 0%Z (banner args))
    as (o & evs & -> & Hrq & _).
  destruct o as [[]|e]; cbn [snd ret]; rewrite requests_of_app; cbn [requests_of banner];
    rewrite Hrq; reflexivity.
Qed.

(** A command line that does not stop the parser, gives the four required
    options and holds nothing unrecognised is accepted: [main] runs on the
    values last given, with the defaults for what is not given. *)
Lemma accepted_invocation_runs net inv tp u usr pwd :
  passes inv = true ->
  unrecognized_of inv = [] ->
  last_given OptTopic inv = Some tp ->
  last_given OptRestApiUrl inv = Some u ->
  last_given OptUsername inv = Some usr ->
  last_given OptPassword inv = Some pwd ->
  exists n,
    run net inv
    = run_body net {| topic := tp; rest_api_url := u; username := usr; password := pwd;
                      message := match last_given OptMessage inv with
                                 | Some m => m
                                 | None => "Hello from REST API"
                                 end;
                      count := n |}
    /\ match last_given OptCount inv with
       | Some s => py_int s = Some n
       | None => n = 1%Z
       end.
Proof.
  intros Hp Hun Ht Hu Husr Hpwd.
  destruct (consume_passes inv initial_state [] Hp) as (st & Hrun & Hg & He & Hc).
  exists (count_value st). split; [|exact Hc].
  unfold run, run_body, main, parse_args, bind. rewrite Hrun.
  rewrite !Hg, Ht, Hu, Husr, Hpwd, He, Hun. cbn [initial_state extras given List.app].
  unfold ret. destruct (last_given OptMessage inv); reflexivity.
Qed.


(** ** Further properties: argument parsing *)


(** X8. When nothing stops the parser (no [-h], no rejected argument, no
    invalid [--count]) and at least one of the four required options is not
    given, the run is a usage error with exit status 2 whose message lists
    exactly the options that are missing, in the order of their declaration,
    also when there are unrecognised arguments; there is no banner and no
    request. *)
Theorem missing_required_is_usage_error net inv :
  passes inv = true ->
  missing_options inv <> [] ->
  run net inv
  = ([Stderr usage;
      Stderr (prog ++ ": error: the following arguments are required: "
              ++ String.concat ", " (missing_options inv))],
     2%Z).
Proof.
  intros Hp Hmiss.
  destruct (consume_passes inv initial_state [] Hp) as (st & Hrun & Hg & _).
  assert (Hsame : missing_required st = missing_options inv).
  { unfold missing_required, missing_options, required_options. cbn [flat_map].
    rewrite !Hg. cbn [initial_state given].
    destruct (last_given OptTopic inv), (last_given OptRestApiUrl inv),
      (last_given OptUsername inv), (last_given OptPassword inv); reflexivity. }
  unfold run, main, parse_args, bind. rewrite Hrun, Hsame.
  rewrite !Hg. cbn [initial_state given].
  unfold missing_options, required_options in Hmiss. cbn [flat_map] in Hmiss.
  destruct (last_given OptTopic inv), (last_given OptRestApiUrl inv),
    (last_given OptUsername inv), (last_given OptPassword inv);
    first [now contradiction Hmiss | reflexivity].
Qed.

(** X9. A command line that does not stop the parser, holds nothing
    unrecognised, gives the four required options and neither [--message]
    nor [--count] sends exactly one request, whatever the network answers:
    to the normalized URL and the topic last given, with the default text
    [Hello from REST API] verbatim (no [(1/1)] suffix); the exit status is 0
    or 1, never that of a usage error. *)
Theorem default_invocation_sends_one_record net inv tp u usr pwd :
  passes inv = true ->
  unrecognized_of inv = [] ->
  last_given OptTopic inv = Some tp ->
  last_given OptRestApiUrl inv = Some u ->
  last_given OptUsername inv = Some usr ->
  last_given OptPassword inv = Some pwd ->
  last_given OptMessage inv = None ->
  last_given OptCount inv = None ->
  requests_of (fst (run net inv))
  = [sent_request (rstrip "/" u) tp usr pwd "Hello from REST API"]
  /\ (snd (run net inv) = 0%Z \/ snd (run net inv) = 1%Z).
Proof.
  intros Hp Hun Ht Hu Husr Hpwd Hmsg Hc.
  destruct (accepted_invocation_runs net inv tp u usr pwd Hp Hun Ht Hu Husr Hpwd)
    as (n & -> & Hn).
  rewrite Hmsg. rewrite Hc in Hn. subst n.
  set (args := {| topic := tp; rest_api_url := u; username := usr; password := pwd;
                  message := "Hello from REST API"; count := 1 |}).
  split.
  - now rewrite (run_body_single_request net args eq_refl).
  - now destruct (run_body_requests net args) as (m & _ & _ & _ & Hstatus).
Qed.

(** ** The password does not show *)

(** The outcome of a call depends on the trace through the number of the
    requests before it only, and on the password not at all. *)
Lemma sim_produce_message_rest net u tp usr pw1 pw2 msg :
  sim (produce_message_rest net u tp usr pw1 msg) (produce_message_rest net u tp usr pw2 msg).
Proof.
  intros t1 t2 Ht.
  unfold produce_message_rest, try_except, bind, requests_post, raise_for_status,
    response_json.
  rewrite (observe_requests t1 t2 Ht).
  destruct (net _) as [r|m resp|]; cbn.
  - destruct ((400 <=? status_code r)%Z && (status_code r <? 500)%Z); cbn;
      [now rewrite !map_app, Ht|].
    destruct ((500 <=? status_code r)%Z && (status_code r <? 600)%Z); cbn;
      [now rewrite !map_app, Ht|].
    destruct (json_body r); cbn; now rewrite !map_app, Ht.
  - destruct resp; cbn; now rewrite !map_app, Ht.
  - now rewrite !map_app, Ht.
Qed.

(** Of the arguments, reporting uses the topic only. *)
Lemma sim_report args1 args2 i v :
  topic args1 = topic args2 -> sim (report args1 i v) (report args2 i v).
Proof.
  intros Htopic t1 t2 Ht.
  unfold report, has_metadata, has_offsets, bind, lift, ret, print, delivered_line.
  rewrite Htopic.
  repeat (break_match; cbn [fst snd]); rewrite ?map_app, ?Ht; now split.
Qed.

Lemma sim_for_range net args p1 p2 u n :
  forall i,
    sim (for_range n i (loop_body net (set_password args p1) u))
        (for_range n i (loop_body net (set_password args p2) u)).
Proof.
  induction n as [|n IH]; intros i; cbn [for_range].
  - intros t1 t2 Ht. now split.
  - apply sim_bind; [|intros _; apply IH].
    unfold loop_body. apply sim_bind.
    + apply sim_produce_message_rest.
    + intros v. now apply sim_report.
Qed.

Lemma run_body_starts_with_banner net args :
  exists evs, fst (run_body net args) = (banner args ++ evs)%list.
Proof.
  unfold run_body.
  destruct (for_range_shape net args (rstrip "/" (rest_api_url args))
              (Z.to_nat (count args)) 0%Z (banner args))
    as (o & evs & m & Hloop & _).
  rewrite (main_body_loop net args o _ Hloop).
  destruct o as [[]|e]; [|destruct e];
    cbn [fst is_KeyboardInterrupt is_Exception]; rewrite <- ?app_assoc; eauto.
Qed.

(** C8. For the same outcomes of the network, everything the program
    prints is the same when only the password differs: the text printed on
    stdout (banner and lines of the messages), and also what it prints on
    stderr (the error lines of [produce_message_rest] and of [main]) and its
    exit status.  So the password is not part of any printed line, while the
    banner shows the topic, the REST API URL and the user name. *)
Theorem printed_output_independent_of_password net args (p1 p2 : string) :
  stdout_of (fst (run_body net (set_password args p1)))
  = stdout_of (fst (run_body net (set_password args p2)))
  /\ stderr_of (fst (run_body net (set_password args p1)))
     = stderr_of (fst (run_body net (set_password args p2)))
  /\ snd (run_body net (set_password args p1)) = snd (run_body net (set_password args p2))
  /\ exists lines,
       stdout_of (fst (run_body net args))
       = List.app
           ["🚀 Producing messages via REST API...";
            "   Topic: " ++ topic args;
            "   REST API: " ++ rstrip "/" (rest_api_url args);
            "   Username: " ++ username args;
            ""]
           lines.
Proof.
  assert (Hobs : map observe (fst (run_body net (set_password args p1)))
                 = map observe (fst (run_body net (set_password args p2)))
                 /\ snd (run_body net (set_password args p1))
                    = snd (run_body net (set_password args p2))).
  { unfold run_body.
    pose proof (sim_for_range net args p1 p2 (rstrip "/" (rest_api_url args))
                  (Z.to_nat (count args)) 0%Z
                  (banner (set_password args p1)) (banner (set_password args p2))
                  eq_refl) as [Ho Hs].
    destruct (for_range _ _ (loop_body net (set_password args p1) _) _)
      as [o1 t1] eqn:H1.
    destruct (for_range _ _ (loop_body net (set_password args p2) _) _)
      as [o2 t2] eqn:H2.
    cbn [fst snd] in Ho, Hs. subst o2.
    rewrite (main_body_loop net (set_password args p1) o1 t1 H1).
    rewrite (main_body_loop net (set_password args p2) o1 t2 H2).
    destruct o1 as [[]|e]; [|destruct e];
      cbn [fst snd is_KeyboardInterrupt is_Exception exit_code];
      rewrite ?map_app, ?Hs; split; reflexivity. }
  destruct Hobs as [Hobs Hexit].
  split; [now apply observe_stdout|].
  split; [now apply observe_stderr|].
  split; [exact Hexit|].
  destruct (run_body_starts_with_banner net args) as [evs ->].
  exists (stdout_of evs). rewrite stdout_of_app. reflexivity.
Qed.

(** ** Further properties: iterations that complete *)

(** A report that returns has printed exactly one line. *)
Lemma report_returns_line args i v (t t' : trace) :
  report args i v t = (Ret tt, t') -> exists line, t' = (t ++ [Stdout line])%list.
Proof.
  unfold report, has_metadata, has_offsets, bind, lift, ret, print.
  repeat (break_match; simpl); intros Heq; inversion Heq; eauto.
Qed.

(** An iteration that completes has issued its request and then printed
    exactly one line on stdout. *)
Lemma loop_body_returns net args u i (t t' : trace) :
  loop_body net args u i t = (Ret tt, t') ->
  exists line, t' = (t ++ [Post (loop_request args u i); Stdout line])%list.
Proof.
  unfold loop_body, bind, loop_request.
  destruct (produce_message_rest_shape net u (topic args) (username args) (password args)
              (message_text args i) t) as (o & errs & -> & Hret & _).
  destruct o as [v|e]; [|discriminate].
  rewrite (Hret v eq_refl). cbn [map]. intros Hrep.
  destruct (report_returns_line _ _ _ _ _ Hrep) as [line ->].
  exists line. now rewrite <- app_assoc.
Qed.

Lemma reported_as_report args i v line (t : trace) :
  reported_as args i v line ->
  report args i v t = (Ret tt, (t ++ [Stdout line])%list).
Proof.
  intros [kvs md Hmd | kvs info rest Hmd Hoff | v' Hv | kvs Hmd Hoff].
  - now apply report_metadata.
  - now apply (report_offsets args i kvs info rest).
  - now apply report_generic_falsy.
  - now apply report_generic_dict.
Qed.

(** A loop that completes has gone through all its iterations, each a
    request followed by one line. *)
Lemma for_range_completes net args u n :
  forall i (t t' : trace),
    for_range n i (loop_body net args u) t = (Ret tt, t') ->
    exists lines,
      List.length lines = n
      /\ t' = (t ++ exchanges (map (fun k => loop_request args u (i + Z.of_nat k)) (seq 0 n))
                      lines)%list.
Proof.
  induction n as [|n IH]; intros i t t'.
  - cbn. intros [= <-]. exists []. split; [reflexivity|now rewrite app_nil_r].
  - cbn [for_range]. unfold bind.
    destruct (loop_body net args u i t) as [[[]|e] t1] eqn:Hbody; [|discriminate].
    intros Hrest.
    destruct (loop_body_returns _ _ _ _ _ _ Hbody) as [line ->].
    destruct (IH _ _ _ Hrest) as (lines & Hlen & ->).
    exists (line :: lines). split; [simpl; congruence|].
    rewrite loop_requests_shift. cbn [exchanges]. now rewrite <- app_assoc.
Qed.

(** When every response the loop gets is let through and carries a result
    [main] knows how to report, the loop completes. *)
Lemma for_range_reports net args u (v : nat -> value) (line : nat -> string) n :
  forall i (t : trace) (c : nat),
    (forall k, (k < n)%nat ->
       exists r, net (List.length (requests_of t) + k)%nat = Responds r
                 /\ accepted r
                 /\ json_body r = JsonValue (v (c + k)%nat)
                 /\ reported_as args (i + Z.of_nat k) (v (c + k)%nat) (line (c + k)%nat)) ->
    for_range n i (loop_body net args u) t
    = (Ret tt,
       (t ++ exchanges (map (fun k => loop_request args u (i + Z.of_nat k)) (seq 0 n))
               (map (fun k => line (c + k)%nat) (seq 0 n)))%list).
Proof.
  induction n as [|n IH]; intros i t c Hall.
  - cbn. unfold ret. now rewrite app_nil_r.
  - cbn [for_range]. unfold bind at 1.
    destruct (Hall O ltac:(lia)) as (r & Hnet & Hacc & Hjson & Hrep).
    rewrite Nat.add_0_r in Hnet, Hjson, Hrep. rewrite Z.add_0_r in Hrep.
    unfold loop_body at 1. unfold bind at 1.
    rewrite (produce_message_rest_returns net _ _ _ _ _ t r _ Hnet Hacc Hjson).
    rewrite (reported_as_report _ _ _ _ _ Hrep).
    rewrite (IH (i + 1)%Z _ (S c)).
    + rewrite loop_requests_shift. cbn [seq map exchanges].
      rewrite Nat.add_0_r, <- !app_assoc. cbn [List.app]. unfold loop_request.
      do 5 f_equal. rewrite <- seq_shift, map_map. apply map_ext. intros k.
      f_equal. lia.
    + intros k Hk. destruct (Hall (S k) ltac:(lia)) as (r' & Hnet' & Hacc' & Hjson' & Hrep').
      exists r'. rewrite !requests_of_app, !length_app. cbn [requests_of List.length].
      replace (List.length (requests_of t) + 1 + 0 + k)%nat
        with (List.length (requests_of t) + S k)%nat by lia.
      replace (S c + k)%nat with (c + S k)%nat by lia.
      replace (i + 1 + Z.of_nat k)%Z with (i + Z.of_nat (S k))%Z by lia.
      auto.
Qed.

(** X1. When every response of a run is let through by [raise_for_status]
    (any status outside 400 to 599) and carries a result of one of the shapes
    [main] reports, what the program does is: print the banner, then for
    each message in order issue its request and print its line (the [count]
    messages, none skipped, none repeated), then print the summary line; the
    exit status is 0. *)
Theorem reported_run_succeeds net args (v : nat -> value) (line : nat -> string) :
  (forall k, (k < Z.to_nat (count args))%nat ->
     exists r, net k = Responds r
               /\ accepted r
               /\ json_body r = JsonValue (v k)
               /\ reported_as args (Z.of_nat k) (v k) (line k)) ->
  run_body net args
  = ((banner args
      ++ exchanges (map (nth_request args) (seq 0 (Z.to_nat (count args))))
           (map line (seq 0 (Z.to_nat (count args))))
      ++ [Stdout "✅ All messages sent and delivered"])%list,
     0%Z).
Proof.
  intros Hall. unfold run_body.
  rewrite (main_body_loop net args (Ret tt)
             (banner args
              ++ exchanges (map (nth_request args) (seq 0 (Z.to_nat (count args))))
                   (map line (seq 0 (Z.to_nat (count args)))))%list).
  - cbn [exit_code]. now rewrite <- app_assoc.
  - unfold for_in_range.
    rewrite (for_range_reports net args _ v line _ 0%Z (banner args) O); [reflexivity|].
    intros k Hk. cbn [banner requests_of List.length Nat.add]. now apply Hall.
Qed.

(** X2. A run ends in one of three ways.  With status 0: then all [count]
    requests were issued, each followed by one line on stdout, the summary
    line is the last thing printed and stderr is empty.  With status 1 after
    an interrupt: the interrupt notice is the last thing printed.  With
    status 1 after an error: a line [Error: ...] on stderr is the last thing
    printed.  In the last two cases the summary line is not printed after the
    loop. *)
Theorem run_body_endings net args :
  (exists lines,
     List.length lines = Z.to_nat (count args)
     /\ run_body net args
        = ((banner args
            ++ exchanges (map (nth_request args) (seq 0 (Z.to_nat (count args)))) lines
            ++ [Stdout "✅ All messages sent and delivered"])%list, 0%Z))
  \/ (exists t, run_body net args
                = ((t ++ [Stdout (String "010" "⚠️  Interrupted")])%list, 1%Z))
  \/ (exists t e, run_body net args
                  = ((t ++ [Stderr ("❌ Error: " ++ exc_str e)])%list, 1%Z)).
Proof.
  unfold run_body.
  destruct (for_in_range (count args) (loop_body net args (rstrip "/" (rest_api_url args)))
              (banner args)) as [o t1] eqn:Hloop.
  rewrite (main_body_loop net args o t1 Hloop).
  destruct o as [[]|e].
  - left. unfold for_in_range in Hloop.
    destruct (for_range_completes _ _ _ _ _ _ _ Hloop) as (lines & Hlen & ->).
    exists lines. split; [exact Hlen|]. cbn [exit_code]. now rewrite <- app_assoc.
  - right.
    destruct (for_range_shape net args (rstrip "/" (rest_api_url args))
                (Z.to_nat (count args)) 0%Z (banner args))
      as (o' & evs & m & Hloop' & _ & _ & _ & Hexc).
    unfold for_in_range in Hloop. rewrite Hloop in Hloop'. injection Hloop' as <- _.
    specialize (Hexc e eq_refl).
    destruct e; cbn [is_KeyboardInterrupt is_Exception exit_code exits] in *;
      try tauto; [right | left | right | right | right | right]; eauto.
Qed.

(** ** Further properties: runs that stop *)

(** If request number [k] of the loop (from 0) is issued and gets an outcome
    on which an iteration aborts, the [k] iterations before it each issued
    their request and printed their line, and the loop stops there. *)
Lemma for_range_aborts net args u (p : post_result) (e : exc) (errs : list string) n :
  aborts net args u p e errs ->
  forall i (t : trace) k,
    (k < n)%nat ->
    net (List.length (requests_of t) + k)%nat = p ->
    (List.length (requests_of t) + k
     < List.length (requests_of (snd (for_range n i (loop_body net args u) t))))%nat ->
    exists lines,
      List.length lines = k
      /\ for_range n i (loop_body net args u) t
         = (Raise e,
            (t ++ exchanges (map (fun j => loop_request args u (i + Z.of_nat j)) (seq 0 k))
                    lines
               ++ Post (loop_request args u (i + Z.of_nat k)) :: map Stderr errs)%list).
Proof.
  intros Hab. induction n as [|n IH]; intros i t k Hk Hnet Hissued; [lia|].
  cbn [for_range] in *. unfold bind in *.
  destruct k as [|k].
  - rewrite Nat.add_0_r in Hnet. rewrite (Hab i t Hnet).
    exists []. split; [reflexivity|]. cbn [seq map exchanges List.app].
    now rewrite Z.add_0_r.
  - destruct (loop_body net args u i t) as [[[]|e'] t1] eqn:Hbody.
    + destruct (loop_body_returns _ _ _ _ _ _ Hbody) as [line ->].
      assert (Hlen1 : List.length
                        (requests_of (t ++ [Post (loop_request args u i); Stdout line])%list)
                      = S (List.length (requests_of t))).
      { rewrite requests_of_app, length_app. cbn. lia. }
      destruct (IH (i + 1)%Z (t ++ [Post (loop_request args u i); Stdout line])%list k)
        as (lines & Hlen & ->).
      * lia.
      * rewrite Hlen1. now replace (S (List.length (requests_of t)) + k)%nat
          with (List.length (requests_of t) + S k)%nat by lia.
      * rewrite Hlen1. cbn [snd] in Hissued |- *. lia.
      * exists (line :: lines). split; [simpl; congruence|].
        rewrite loop_requests_shift. cbn [exchanges].
        rewrite <- !app_assoc. cbn [List.app].
        replace (i + 1 + Z.of_nat k)%Z with (i + Z.of_nat (S k))%Z by lia.
        reflexivity.
    + exfalso.
      destruct (loop_body_shape net args u i t) as (o1 & evs1 & Hshape & Hrq & _).
      rewrite Hbody in Hshape. injection Hshape as _ ->.
      cbn [snd] in Hissued. rewrite requests_of_app, length_app in Hissued.
      cbn [requests_of List.length] in Hissued. rewrite Hrq in Hissued.
      cbn in Hissued. lia.
Qed.

(** The same for a run: the loop starts after the banner, at message 0. *)
Lemma run_body_aborts net args (p : post_result) (e : exc) (errs : list string) (j : nat) :
  aborts net args (rstrip "/" (rest_api_url args)) p e errs ->
  (1 <= j)%nat ->
  (Z.of_nat j <= count args)%Z ->
  (j <= List.length (requests_of (fst (run_body net args))))%nat ->
  net (j - 1)%nat = p ->
  exists lines,
    List.length lines = (j - 1)%nat
    /\ for_in_range (count args) (loop_body net args (rstrip "/" (rest_api_url args)))
         (banner args)
       = (Raise e,
          (banner args
           ++ exchanges (map (nth_request args) (seq 0 (j - 1))) lines
           ++ Post (nth_request args (j - 1)) :: map Stderr errs)%list).
Proof.
  intros Hab Hj Hcount Hissued Hnet.
  pose proof (run_body_loop_requests net args _ _
                (surjective_pairing
                   (for_in_range (count args)
                      (loop_body net args (rstrip "/" (rest_api_url args)))
                      (banner args)))) as Hreq.
  rewrite Hreq in Hissued. unfold for_in_range in *.
  destruct (for_range_aborts net args _ p e errs (Z.to_nat (count args)) Hab
              0%Z (banner args) (j - 1)%nat) as (lines & Hlen & Hrun).
  - lia.
  - exact Hnet.
  - cbn [banner requests_of List.length Nat.add]. lia.
  - exists lines. split; [exact Hlen|exact Hrun].
Qed.

Lemma aborts_fails net args u (msg : string) (resp : option response) :
  aborts net args u (Fails msg resp) (RequestException msg resp)
    (("❌ REST API error: " ++ msg)
     :: match resp with
        | Some r => ["   Status: " ++ str_int (status_code r); "   Response: " ++ text r]
        | None => []
        end).
Proof.
  intros i t Hnet.
  unfold loop_body, produce_message_rest, try_except, bind, requests_post.
  rewrite Hnet. cbn.
  destruct resp as [r|]; unfold print_err, raise, ret; cbn; now rewrite <- !app_assoc.
Qed.

Lemma aborts_interrupted net args u :
  aborts net args u Interrupted KeyboardInterrupt [].
Proof.
  intros i t Hnet.
  unfold loop_body, produce_message_rest, try_except, bind, requests_post.
  now rewrite Hnet.
Qed.

Lemma not_http_error (r : response) :
  accepted r ->
  (400 <=? status_code r)%Z && (status_code r <? 500)%Z = false
  /\ (500 <=? status_code r)%Z && (status_code r <? 600)%Z = false.
Proof.
  unfold accepted. intros Hacc.
  split; apply andb_false_iff; rewrite Z.leb_gt, Z.ltb_ge; lia.
Qed.

Lemma aborts_json_error net args u (r : response) (msg : string) :
  accepted r ->
  json_body r = JsonError msg ->
  aborts net args u (Responds r) (RequestException msg None) ["❌ REST API error: " ++ msg].
Proof.
  intros Hacc Hjson i t Hnet. destruct (not_http_error r Hacc) as [H4 H5].
  unfold loop_body, produce_message_rest, try_except, bind, requests_post,
    raise_for_status, response_json.
  rewrite Hnet. cbn. rewrite H4, H5, Hjson. cbn.
  unfold print_err, raise, ret. cbn. now rewrite <- !app_assoc.
Qed.

Lemma report_truthy_scalar args i v (t : trace) :
  truthy_scalar v = true ->
  report args i v t
  = (Raise (TypeError ("argument of type '" ++ type_name v ++ "' is not iterable")), t).
Proof.
  intros Hv. unfold report, has_metadata, bind, lift.
  destruct v; try discriminate; cbn [truthy truthy_scalar] in *; rewrite Hv; reflexivity.
Qed.

Lemma aborts_truthy_scalar net args u (r : response) (v : value) :
  accepted r ->
  json_body r = JsonValue v ->
  truthy_scalar v = true ->
  aborts net args u (Responds r)
    (TypeError ("argument of type '" ++ type_name v ++ "' is not iterable")) [].
Proof.
  intros Hacc Hjson Hv i t Hnet.
  unfold loop_body, bind.
  rewrite (produce_message_rest_returns net _ _ _ _ _ t r v Hnet Hacc Hjson).
  now rewrite report_truthy_scalar.
Qed.

(** X3. When the j-th call to [requests.post] fails in the transport
    (connection, timeout, ...: a [RequestException] with message [msg]), the
    run stops there: the j-1 messages before it were sent and reported,
    exactly j requests were attempted, stderr gets the REST API error line,
    the status and body lines only if the exception carries a response, and
    the final error line; the exit status is 1. *)
Theorem transport_failure_aborts_run net args (j : nat) (msg : string)
    (resp : option response) :
  (1 <= j)%nat ->
  (Z.of_nat j <= count args)%Z ->
  (j <= List.length (requests_of (fst (run_body net args))))%nat ->
  net (j - 1)%nat = Fails msg resp ->
  exists lines,
    List.length lines = (j - 1)%nat
    /\ run_body net args
       = ((banner args
           ++ exchanges (map (nth_request args) (seq 0 (j - 1))) lines
           ++ [Post (nth_request args (j - 1)); Stderr ("❌ REST API error: " ++ msg)]
           ++ match resp with
              | Some r => [Stderr ("   Status: " ++ str_int (status_code r));
                           Stderr ("   Response: " ++ text r)]
              | None => []
              end
           ++ [Stderr ("❌ Error: " ++ msg)])%list,
          1%Z).
Proof.
  intros Hj Hcount Hissued Hnet.
  destruct (run_body_aborts net args _ _ _ j (aborts_fails net args _ msg resp)
              Hj Hcount Hissued Hnet) as (lines & Hlen & Hloop).
  exists lines. split; [exact Hlen|].
  unfold run_body. rewrite (main_body_loop net args _ _ Hloop).
  cbn [is_KeyboardInterrupt is_Exception exit_code exc_str].
  destruct resp; cbn [map]; rewrite <- !app_assoc; reflexivity.
Qed.

(** X4. When the user interrupts the j-th call, the [except] clause of
    [produce_message_rest] does not catch it and the run stops there: the j-1
    messages before it were sent and reported, exactly j requests were
    attempted, the handler of [main] prints the interrupt notice on stdout,
    and the exit status is 1. *)
Theorem interrupt_aborts_run net args (j : nat) :
  (1 <= j)%nat ->
  (Z.of_nat j <= count args)%Z ->
  (j <= List.length (requests_of (fst (run_body net args))))%nat ->
  net (j - 1)%nat = Interrupted ->
  exists lines,
    List.length lines = (j - 1)%nat
    /\ run_body net args
       = ((banner args
           ++ exchanges (map (nth_request args) (seq 0 (j - 1))) lines
           ++ [Post (nth_request args (j - 1));
               Stdout (String "010" "⚠️  Interrupted")])%list,
          1%Z).
Proof.
  intros Hj Hcount Hissued Hnet.
  destruct (run_body_aborts net args _ _ _ j (aborts_interrupted net args _)
              Hj Hcount Hissued Hnet) as (lines & Hlen & Hloop).
  exists lines. split; [exact Hlen|].
  unfold run_body. rewrite (main_body_loop net args _ _ Hloop).
  cbn [is_KeyboardInterrupt is_Exception exit_code exc_str fst map].
  rewrite <- !app_assoc. reflexivity.
Qed.

(** X5. When the j-th response is let through by [raise_for_status] but its
    body is not JSON (an empty body, HTML, ...), the run stops there with
    exit status 1, also for a status 200: stderr gets the REST API error line
    and the final error line with the message of the decoding error, and no
    status or body line, since the exception carries no response. *)
Theorem invalid_json_body_aborts_run net args (j : nat) (r : response) (msg : string) :
  (1 <= j)%nat ->
  (Z.of_nat j <= count args)%Z ->
  (j <= List.length (requests_of (fst (run_body net args))))%nat ->
  net (j - 1)%nat = Responds r ->
  accepted r ->
  json_body r = JsonError msg ->
  exists lines,
    List.length lines = (j - 1)%nat
    /\ run_body net args
       = ((banner args
           ++ exchanges (map (nth_request args) (seq 0 (j - 1))) lines
           ++ [Post (nth_request args (j - 1));
               Stderr ("❌ REST API error: " ++ msg);
               Stderr ("❌ Error: " ++ msg)])%list,
          1%Z).
Proof.
  intros Hj Hcount Hissued Hnet Hacc Hjson.
  destruct (run_body_aborts net args _ _ _ j (aborts_json_error net args _ r msg Hacc Hjson)
              Hj Hcount Hissued Hnet) as (lines & Hlen & Hloop).
  exists lines. split; [exact Hlen|].
  unfold run_body. rewrite (main_body_loop net args _ _ Hloop).
  cbn [is_KeyboardInterrupt is_Exception exit_code exc_str map].
  rewrite <- !app_assoc. reflexivity.
Qed.

(** X6. When the j-th response is let through and its JSON body is [true]
    or a number other than zero, the membership test ['metadata' in result]
    raises [TypeError]: the run stops there with the error on stderr and exit
    status 1, the j-1 messages before it staying reported and message j
    getting no line although its request was sent. *)
Theorem scalar_json_body_aborts_run net args (j : nat) (r : response) (v : value) :
  (1 <= j)%nat ->
  (Z.of_nat j <= count args)%Z ->
  (j <= List.length (requests_of (fst (run_body net args))))%nat ->
  net (j - 1)%nat = Responds r ->
  accepted r ->
  json_body r = JsonValue v ->
  truthy_scalar v = true ->
  exists lines,
    List.length lines = (j - 1)%nat
    /\ run_body net args
       = ((banner args
           ++ exchanges (map (nth_request args) (seq 0 (j - 1))) lines
           ++ [Post (nth_request args (j - 1));
               Stderr ("❌ Error: argument of type '" ++ type_name v
                       ++ "' is not iterable")])%list,
          1%Z).
Proof.
  intros Hj Hcount Hissued Hnet Hacc Hjson Hv.
  destruct (run_body_aborts net args _ _ _ j
              (aborts_truthy_scalar net args _ r v Hacc Hjson Hv)
              Hj Hcount Hissued Hnet) as (lines & Hlen & Hloop).
  exists lines. split; [exact Hlen|].
  unfold run_body. rewrite (main_body_loop net args _ _ Hloop).
  cbn [is_KeyboardInterrupt is_Exception exit_code exc_str map].
  rewrite <- !app_assoc. reflexivity.
Qed.

(** X12. The [Authorization] header identifies the credentials: two calls
    of [produce_message_rest] send the same header value only if the strings
    [username:password] they were given are the same. *)
Theorem authorization_identifies_credentials net net' u tp usr pw msg u' tp' usr' pw' msg'
    (rq rq' : request) :
  requests_of (snd (produce_message_rest net u tp usr pw msg [])) = [rq] ->
  requests_of (snd (produce_message_rest net' u' tp' usr' pw' msg' [])) = [rq'] ->
  header "Authorization" (headers rq) = header "Authorization" (headers rq') ->
  usr ++ ":" ++ pw = usr' ++ ":" ++ pw'.
Proof.
  destruct (produce_message_rest_shape net u tp usr pw msg []) as (o & errs & -> & _).
  destruct (produce_message_rest_shape net' u' tp' usr' pw' msg' [])
    as (o' & errs' & -> & _).
  cbn [snd List.app requests_of]. rewrite !requests_of_stderr.
  intros [= <-] [= <-]. cbn. intros [= Hb64].
  now apply b64encode_injective.
Qed.

(** X13. When reporting a result raises, nothing has been printed for the
    message, and the exception is a [TypeError], an [AttributeError] or the
    [KeyError] of index 0 on a dict: the membership and length tests that
    guard [result['metadata']], [result['offsets']] and [...[0]] rule out
    [IndexError] and the [KeyError] of a missing key. *)
Theorem report_raises_type_errors args i v (t t' : trace) (e : exc) :
  report args i v t = (Raise e, t') ->
  t' = t
  /\ ((exists msg, e = TypeError msg)
      \/ (exists msg, e = AttributeError msg)
      \/ e = KeyError (PyInt 0)).
Proof.
  unfold report, has_metadata, has_offsets, bind, lift, ret, print.
  repeat (break_match; simpl); intros Heq; inversion Heq; subst;
    (split; [reflexivity|]);
    match goal with
    | Hin : py_in ?k ?x = Ret true, Hget : getitem_str ?x ?k = Raise _ |- _ =>
        left; exact (getitem_str_after_in _ _ _ Hin Hget)
    | Hlen : py_len ?x = Ret ?n, Hpos : (0 <? ?n)%Z = true, Hget : getitem_0 ?x = Raise _ |- _ =>
        right; right; exact (getitem_0_after_len _ _ _ Hlen Hpos Hget)
    | Hget : py_get _ _ _ = Raise _ |- _ => right; left; exact (py_get_raises _ _ _ _ Hget)
    | Hlen : py_len _ = Raise _ |- _ => left; exact (py_len_raises _ _ Hlen)
    | Hin : py_in _ _ = Raise _ |- _ => left; exact (py_in_raises _ _ _ Hin)
    end.
Qed.

End ProducerProperties.

(** * The properties at sample inputs *)

(** C2, counterexample: 300 is not a 2xx status, yet with [count = 2] a
    first response [300 Multiple Choices] that carries a JSON body is
    reported as sent; the run goes on to the second request and exits with
    status 0, nothing being printed on stderr. *)
Lemma non_2xx_response_does_not_abort :
  net_300 O = Responds response_300
  /\ ~ (200 <= status_code response_300 < 300)%Z
  /\ List.length (requests_of (fst (run_body net_300 (sample_args 2)))) = 2%nat
  /\ snd (run_body net_300 (sample_args 2)) = 0%Z
  /\ stderr_of (fst (run_body net_300 (sample_args 2))) = [].
Proof.
  split; [reflexivity|]. split; [cbn; lia|]. vm_compute. repeat split.
Qed.

Lemma http_error_aborts_run_witness :
  net_404 1%nat = Responds response_404
  /\ List.length (requests_of (fst (run_body net_404 (sample_args 3)))) = 2%nat
  /\ snd (run_body net_404 (sample_args 3)) = 1%Z
  /\ stderr_of (fst (run_body net_404 (sample_args 3)))
     = ["❌ REST API error: " ++ http_error_of response_404;
        "   Status: " ++ str_int (status_code response_404);
        "   Response: " ++ text response_404;
        "❌ Error: " ++ http_error_of response_404].
Proof.
  split; [reflexivity|].
  apply (http_error_aborts_run net_404 (sample_args 3) 2 response_404).
  - lia.
  - cbn. lia.
  - vm_compute. lia.
  - reflexivity.
  - cbn. lia.
Defined.

(** C3, the defect at sample inputs: a 200 response whose JSON body is
    [true], [{"metadata": null}] or [{"offsets": [5]}] has neither of the two
    recognised shapes, yet no generic success line is printed: the run
    prints an error on stderr and exits with status 1. *)
Theorem unexpected_json_shape_aborts_run :
  run_body (net_json "true" (PyBool true)) (sample_args 1)
  = ((banner (sample_args 1)
      ++ [Post (nth_request (sample_args 1) 0);
          Stderr "❌ Error: argument of type 'bool' is not iterable"])%list, 1%Z)
  /\ run_body
       (net_json ("{" ++ quoted "metadata" ++ ": null}") (PyDict [("metadata", PyNone)]))
       (sample_args 1)
     = ((banner (sample_args 1)
         ++ [Post (nth_request (sample_args 1) 0);
             Stderr "❌ Error: 'NoneType' object has no attribute 'get'"])%list, 1%Z)
  /\ run_body
       (net_json ("{" ++ quoted "offsets" ++ ": [5]}") (PyDict [("offsets", PyList [PyInt 5])]))
       (sample_args 1)
     = ((banner (sample_args 1)
         ++ [Post (nth_request (sample_args 1) 0);
             Stderr "❌ Error: 'int' object has no attribute 'get'"])%list, 1%Z).
Proof. repeat split. Qed.

Lemma request_message_text_witness :
  exists rq,
    nth_error (requests_of (fst (run_body net_ok (sample_args 3)))) 1 = Some rq
    /\ json rq
       = PyDict [("records", PyList [PyDict [("value", PyStr "Hello from REST API (2/3)")]])].
Proof.
  eexists. split; [reflexivity|].
  refine (proj1 (request_message_text net_ok (sample_args 3) 1 _ _)).
  reflexivity.
Defined.

Lemma authorization_decodes_to_credentials_witness :
  exists b64,
    header "Authorization" (headers (nth_request (sample_args 1) 0)) = Some ("Basic " ++ b64)
    /\ b64decode b64 = Some "pp:s3cret".
Proof.
  apply (authorization_decodes_to_credentials net_ok (sample_args 1)).
  vm_compute. left. reflexivity.
Defined.

Lemma nonpositive_count_is_vacuous_success_witness :
  run_body net_ok (sample_args 0)
  = ((banner (sample_args 0) ++ [Stdout "✅ All messages sent and delivered"])%list, 0%Z)
  /\ requests_of (fst (run_body net_ok (sample_args 0))) = [].
Proof.
  apply (nonpositive_count_is_vacuous_success net_ok (sample_args 0)).
  cbn. lia.
Defined.



Lemma json_string_with_metadata_aborts_witness :
  py_in "metadata" (PyStr "metadata") = Ret true
  /\ getitem_str (PyStr "metadata") "metadata"
     = Raise (TypeError "string indices must be integers, not 'str'")
  /\ run_body (net_json (quoted "metadata") (PyStr "metadata")) (sample_args 1)
     = ((banner (sample_args 1)
         ++ [Post (nth_request (sample_args 1) 0);
             Stderr "❌ Error: string indices must be integers, not 'str'"])%list,
        1%Z)
  /\ stdout_of (fst (run_body (net_json (quoted "metadata") (PyStr "metadata"))
                       (sample_args 1)))
     = stdout_of (banner (sample_args 1)).
Proof.
  apply (json_string_with_metadata_aborts
           (net_json (quoted "metadata") (PyStr "metadata")) (sample_args 1)
           (ok_response (quoted "metadata") (PyStr "metadata")) "metadata").
  - cbn. lia.
  - reflexivity.
  - cbn. lia.
  - reflexivity.
  - reflexivity.
Defined.

(** * The further properties at sample inputs *)

Lemma reported_run_succeeds_witness :
  run_body net_metadata (sample_args 2)
  = ((banner (sample_args 2)
      ++ exchanges (map (nth_request (sample_args 2)) (seq 0 2))
           ["✅ Message 1 delivered to orders [partition 0] at offset 0";
            "✅ Message 2 delivered to orders [partition 0] at offset 1"]
      ++ [Stdout "✅ All messages sent and delivered"])%list,
     0%Z).
Proof.
  refine (reported_run_succeeds net_metadata (sample_args 2)
            (fun k => PyDict [("metadata",
                               PyDict [("partition", PyInt 0);
                                       ("offset", PyInt (Z.of_nat k))])])
            (fun k => delivered_line (sample_args 2) (Z.of_nat k) (PyInt 0)
                        (PyInt (Z.of_nat k)))
            _).
  intros k Hk. eexists. split; [reflexivity|].
  split; [unfold accepted; cbn; lia|]. split; [reflexivity|].
  apply (reported_metadata (sample_args 2) (Z.of_nat k) _
           [("partition", PyInt 0); ("offset", PyInt (Z.of_nat k))]).
  reflexivity.
Defined.

Lemma transport_failure_aborts_run_witness :
  exists lines,
    List.length lines = (2 - 1)%nat
    /\ run_body (net_second (Fails "Connection refused" None)) (sample_args 3)
       = ((banner (sample_args 3)
           ++ exchanges (map (nth_request (sample_args 3)) (seq 0 (2 - 1))) lines
           ++ [Post (nth_request (sample_args 3) (2 - 1));
               Stderr ("❌ REST API error: " ++ "Connection refused")]
           ++ []
           ++ [Stderr ("❌ Error: " ++ "Connection refused")])%list,
          1%Z).
Proof.
  apply (transport_failure_aborts_run (net_second (Fails "Connection refused" None))
           (sample_args 3) 2 "Connection refused" None).
  - lia.
  - cbn. lia.
  - vm_compute. lia.
  - reflexivity.
Defined.

Lemma interrupt_aborts_run_witness :
  exists lines,
    List.length lines = (2 - 1)%nat
    /\ run_body (net_second Interrupted) (sample_args 3)
       = ((banner (sample_args 3)
           ++ exchanges (map (nth_request (sample_args 3)) (seq 0 (2 - 1))) lines
           ++ [Post (nth_request (sample_args 3) (2 - 1));
               Stdout (String "010" "⚠️  Interrupted")])%list,
          1%Z).
Proof.
  apply (interrupt_aborts_run (net_second Interrupted) (sample_args 3) 2).
  - lia.
  - cbn. lia.
  - vm_compute. lia.
  - reflexivity.
Defined.

Lemma invalid_json_body_aborts_run_witness :
  exists lines,
    List.length lines = (2 - 1)%nat
    /\ run_body (net_second (Responds response_html)) (sample_args 3)
       = ((banner (sample_args 3)
           ++ exchanges (map (nth_request (sample_args 3)) (seq 0 (2 - 1))) lines
           ++ [Post (nth_request (sample_args 3) (2 - 1));
               Stderr ("❌ REST API error: " ++ "Expecting value: line 1 column 1 (char 0)");
               Stderr ("❌ Error: " ++ "Expecting value: line 1 column 1 (char 0)")])%list,
          1%Z).
Proof.
  apply (invalid_json_body_aborts_run (net_second (Responds response_html))
           (sample_args 3) 2 response_html "Expecting value: line 1 column 1 (char 0)").
  - lia.
  - cbn. lia.
  - vm_compute. lia.
  - reflexivity.
  - unfold accepted. cbn. lia.
  - reflexivity.
Defined.

Lemma scalar_json_body_aborts_run_witness :
  exists lines,
    List.length lines = (2 - 1)%nat
    /\ run_body (net_second (Responds (ok_response "7" (PyInt 7)))) (sample_args 3)
       = ((banner (sample_args 3)
           ++ exchanges (map (nth_request (sample_args 3)) (seq 0 (2 - 1))) lines
           ++ [Post (nth_request (sample_args 3) (2 - 1));
               Stderr ("❌ Error: argument of type '" ++ type_name (PyInt 7)
                       ++ "' is not iterable")])%list,
          1%Z).
Proof.
  apply (scalar_json_body_aborts_run (net_second (Responds (ok_response "7" (PyInt 7))))
           (sample_args 3) 2 (ok_response "7" (PyInt 7)) (PyInt 7)).
  - lia.
  - cbn. lia.
  - vm_compute. lia.
  - reflexivity.
  - unfold accepted. cbn. lia.
  - reflexivity.
  - reflexivity.
Defined.


Lemma missing_required_is_usage_error_witness :
  run net_ok inv_no_credentials
  = ([Stderr usage;
      Stderr (prog ++ ": error: the following arguments are required: "
              ++ String.concat ", " (missing_options inv_no_credentials))],
     2%Z).
Proof.
  apply (missing_required_is_usage_error net_ok inv_no_credentials).
  - reflexivity.
  - cbn. discriminate.
Defined.

Lemma default_invocation_sends_one_record_witness :
  requests_of (fst (run net_ok inv_default))
  = [sent_request (rstrip "/" "https://host/") "orders" "pp" "s3cret" "Hello from REST API"]
  /\ (snd (run net_ok inv_default) = 0%Z \/ snd (run net_ok inv_default) = 1%Z).
Proof.
  apply (default_invocation_sends_one_record net_ok inv_default "orders" "https://host/"
           "pp" "s3cret"); reflexivity.
Defined.

Lemma rstrip_keeps_unslashed_witness : rstrip "/" "https://host" = "https://host".
Proof. apply (rstrip_keeps_unslashed "/" "https://host"). reflexivity. Defined.

Lemma authorization_identifies_credentials_witness :
  "pp" ++ ":" ++ "s3cret" = "pp" ++ ":" ++ "s3cret".
Proof.
  apply (authorization_identifies_credentials net_ok net_300
           "https://host" "orders" "pp" "s3cret" "first"
           "https://other" "audit" "pp" "s3cret" "second"
           (sent_request "https://host" "orders" "pp" "s3cret" "first")
           (sent_request "https://other" "audit" "pp" "s3cret" "second"));
    reflexivity.
Defined.

Lemma report_raises_type_errors_witness :
  (@nil event) = []
  /\ ((exists msg, KeyError (PyInt 0) = TypeError msg)
      \/ (exists msg, KeyError (PyInt 0) = AttributeError msg)
      \/ KeyError (PyInt 0) = KeyError (PyInt 0)).
Proof.
  apply (report_raises_type_errors (sample_args 1) 0
           (PyDict [("offsets", PyDict [("a", PyInt 1)])]) [] [] (KeyError (PyInt 0))).
  reflexivity.
Defined.
